(** * Performance templates page and API bootstrap

    A shallow embedding of
    - [frontend/pages/performance/templates/index.tsx]: the React page that
      lists performance templates ([loadTemplates], [deleteTemplate] and the
      conditions of the render), and
    - the server entry point ([bootstrap]),
    with the properties of both that the specification states. *)

From Stdlib Require Import String List ZArith Bool.
From Stdlib Require Import DecimalString.
Import ListNotations.
Open Scope string_scope.
Set Warnings "-register-all".

(** ** JavaScript values

    What [res.data], [err.response.data] and the other untyped ([any]) values
    of the page range over: the values of JSON, and [undefined].  Numbers are
    the integers; an object is the list of its own properties, each key once
    (a property read takes the first binding). *)

Inductive JsVal : Type :=
| JUndefined
| JNull
| JBool (b : bool)
| JNum (n : Z)
| JStr (s : string)
| JArr (xs : list JsVal)
| JObj (fields : list (string * JsVal)).

(** What a failing operation throws: the rejection of an axios call, whose
    [response] is there when the server answered, or a [TypeError] of the
    runtime (which has no [response] property). *)

Record Response : Type := mkResponse {
  status : Z;
  data : JsVal
}.

Inductive Exn : Type :=
| AxiosError (response : option Response)
| TypeError.

Inductive outcome (A : Type) : Type :=
| Returned (a : A)
| Threw (e : Exn).
Arguments Returned {A} a.
Arguments Threw {A} e.

Fixpoint lookup (k : string) (fs : list (string * JsVal)) : option JsVal :=
  match fs with
  | [] => None
  | (k', v) :: fs' => if String.eqb k k' then Some v else lookup k fs'
  end.

Definition nullish (v : JsVal) : bool :=
  match v with
  | JUndefined | JNull => true
  | _ => false
  end.

(** [prop v k] is the value of [v.k] for a [v] that is neither [null] nor
    [undefined].  Of the inherited properties only [length], the one the page
    reads, is there: on arrays and on strings. *)
Definition prop (v : JsVal) (k : string) : JsVal :=
  match v with
  | JObj fs => match lookup k fs with Some x => x | None => JUndefined end
  | JArr xs => if String.eqb k "length" then JNum (Z.of_nat (List.length xs)) else JUndefined
  | JStr s => if String.eqb k "length" then JNum (Z.of_nat (String.length s)) else JUndefined
  | _ => JUndefined
  end.

(** [v.k]: a [TypeError] on [null] and [undefined]. *)
Definition get (v : JsVal) (k : string) : outcome JsVal :=
  if nullish v then Threw TypeError else Returned (prop v k).

(** [v?.k] *)
Definition get_opt (v : JsVal) (k : string) : JsVal :=
  if nullish v then JUndefined else prop v k.

(** [a ?? b] *)
Definition nullish_or (a b : JsVal) : JsVal :=
  if nullish a then b else a.

(** Truthiness, as [!v], [a || b] and [a && b] test it. *)
Definition truthy (v : JsVal) : bool :=
  match v with
  | JUndefined | JNull => false
  | JBool b => b
  | JNum n => negb (Z.eqb n 0)
  | JStr s => negb (String.eqb s "")
  | JArr _ | JObj _ => true
  end.

(** [a || b] *)
Definition js_or (a b : JsVal) : JsVal :=
  if truthy a then a else b.

(** [a === c] for a primitive [c] (every [===] and [!==] of the page has a
    literal on its right): the same primitive value. *)
Definition strict_eq (a c : JsVal) : bool :=
  match a, c with
  | JUndefined, JUndefined => true
  | JNull, JNull => true
  | JBool x, JBool y => Bool.eqb x y
  | JNum x, JNum y => Z.eqb x y
  | JStr x, JStr y => String.eqb x y
  | _, _ => false
  end.

Definition isArray (v : JsVal) : bool :=
  match v with
  | JArr _ => true
  | _ => false
  end.

(** ** Normalization of the response body (index.tsx, lines 62-67)

    [Array.isArray(data) ? data : data?.items ?? data?.data ?? []] *)
Definition normalize (data : JsVal) : JsVal :=
  if isArray data then data
  else nullish_or (get_opt data "items") (nullish_or (get_opt data "data") (JArr [])).

(** ** The page: state, effects and the monad of its handlers *)

(** The four [useState] cells.  [templates] and [error] are declared
    [any[]] and [string | null]; at run time they hold whatever the setter
    is given ([JNull] is [null]). *)
Record View : Type := mkView {
  templates : JsVal;
  loading : bool;
  error : JsVal;
  operationLoading : option string
}.

Inductive Method : Type := GET | DELETE.

Record Request : Type := mkRequest {
  method : Method;
  url : string;
  authorization : string
}.

(** An invocation that has reached its [await] and waits for the answer. *)
Inductive Suspended : Type :=
| AwaitList
| AwaitDelete (id : string).

Record World : Type := mkWorld {
  view : View;
  token : option string;        (* localStorage.getItem("token"); None is null *)
  requests : list Request;      (* the calls made through [api], oldest first *)
  inflight : list Suspended;    (* the invocations waiting at their await *)
  pushes : list string;         (* the targets of router.push, oldest first *)
  console : list string         (* the labels of console.log and console.error *)
}.

Definition M (A : Type) : Type := World -> outcome A * World.

Definition ret {A : Type} (a : A) : M A := fun w => (Returned a, w).

Definition throw {A : Type} (e : Exn) : M A := fun w => (Threw e, w).

Definition bind {A B : Type} (m : M A) (k : A -> M B) : M B :=
  fun w =>
    match m w with
    | (Returned a, w') => k a w'
    | (Threw e, w') => (Threw e, w')
    end.

Notation "x <- m ;; k" := (bind m (fun x => k))
  (at level 61, m at next level, right associativity).
Notation "m ;; k" := (bind m (fun _ => k))
  (at level 61, right associativity).

(** [try { body } catch (err) { handler err }] *)
Definition try_catch {A : Type} (body : M A) (handler : Exn -> M A) : M A :=
  fun w =>
    match body w with
    | (Returned a, w') => (Returned a, w')
    | (Threw e, w') => handler e w'
    end.

(** [try { body } finally { fin }]: [fin] runs however [body] ended, and the
    outcome is that of [body] unless [fin] throws. *)
Definition try_finally {A : Type} (body : M A) (fin : M unit) : M A :=
  fun w =>
    match body w with
    | (o, w') =>
        match fin w' with
        | (Returned _, w'') => (o, w'')
        | (Threw e, w'') => (Threw e, w'')
        end
    end.

(** A pure computation that may throw, run inside a handler. *)
Definition lift {A : Type} (o : outcome A) : M A := fun w => (o, w).

(** [await p] for a promise that settles with [r]. *)
Definition await (r : outcome Response) : M Response := lift r.

Definition exec {A : Type} (m : M A) (w : World) : World := snd (m w).

Definition with_view (f : View -> View) : M unit :=
  fun w => (Returned tt,
            mkWorld (f (view w)) (token w) (requests w) (inflight w) (pushes w) (console w)).

Definition setTemplates (v : JsVal) : M unit :=
  with_view (fun s => mkView v (loading s) (error s) (operationLoading s)).

Definition setLoading (b : bool) : M unit :=
  with_view (fun s => mkView (templates s) b (error s) (operationLoading s)).

Definition setError (v : JsVal) : M unit :=
  with_view (fun s => mkView (templates s) (loading s) v (operationLoading s)).

Definition setOperationLoading (o : option string) : M unit :=
  with_view (fun s => mkView (templates s) (loading s) (error s) o).

Definition getToken : M (option string) := fun w => (Returned (token w), w).

(** [router.push(path)] *)
Definition push (path : string) : M unit :=
  fun w => (Returned tt,
            mkWorld (view w) (token w) (requests w) (inflight w) (pushes w ++ [path]) (console w)).

(** [console.log(label, ...)] and [console.error(label, ...)] *)
Definition log (label : string) : M unit :=
  fun w => (Returned tt,
            mkWorld (view w) (token w) (requests w) (inflight w) (pushes w) (console w ++ [label])).

(** The call [api.get(...)] or [api.delete(...)] itself: the request leaves,
    and the invocation waits for its answer. *)
Definition send (q : Request) (s : Suspended) : M unit :=
  fun w => (Returned tt,
            mkWorld (view w) (token w) (requests w ++ [q]) (inflight w ++ [s]) (pushes w) (console w)).

(** A token as [!token] and a template literal see it. *)
Definition token_val (t : option string) : JsVal :=
  match t with
  | Some s => JStr s
  | None => JNull
  end.

Definition interpolate (t : option string) : string :=
  match t with
  | Some s => s
  | None => "null"
  end.

(** [err.response?.status] and [err.response?.data?.message] *)
Definition response_of (err : Exn) : option Response :=
  match err with
  | AxiosError r => r
  | TypeError => None
  end.

Definition status_of (err : Exn) : JsVal :=
  match response_of err with
  | Some r => JNum (status r)
  | None => JUndefined
  end.

Definition message_of (err : Exn) : JsVal :=
  match response_of err with
  | Some r => get_opt (data r) "message"
  | None => JUndefined
  end.

(** [xs.filter(f)] for a callback that may throw. *)
Fixpoint filter_throwing (f : JsVal -> outcome bool) (xs : list JsVal) : outcome (list JsVal) :=
  match xs with
  | [] => Returned []
  | x :: xs' =>
      match f x with
      | Threw e => Threw e
      | Returned b =>
          match filter_throwing f xs' with
          | Threw e => Threw e
          | Returned ys => Returned (if b then x :: ys else ys)
          end
      end
  end.

(** [list.filter(f)] on a value that is not [null]: only an array has the
    method, and calling what is not a function is a [TypeError]. *)
Definition js_filter (f : JsVal -> outcome bool) (list : JsVal) : outcome JsVal :=
  match list with
  | JArr xs =>
      match filter_throwing f xs with
      | Returned ys => Returned (JArr ys)
      | Threw e => Threw e
      end
  | _ => Threw TypeError
  end.

(** [(t: any) => t.isActive !== false] *)
Definition isActive_not_false (t : JsVal) : outcome bool :=
  match get t "isActive" with
  | Returned v => Returned (negb (strict_eq v (JBool false)))
  | Threw e => Threw e
  end.

(** ** [PerformanceTemplatesPage] *)

Section Page.

(** What [getCurrentRole()] returned at this render (the accessor lives in
    [utils/routeGuard]). *)
Variable currentRole : JsVal.

(** The runtime's answer to [v > 0] for a [v] that is a string, an array or
    an object, where the comparison goes through [ToPrimitive] and the
    string-to-number conversion. *)
Variable coerced_gt_zero : JsVal -> bool.

Definition isHR : bool := strict_eq currentRole (JStr "HR").
Definition isManager : bool := strict_eq currentRole (JStr "MANAGER").

(** [v > 0] *)
Definition gt_zero (v : JsVal) : bool :=
  match v with
  | JNum n => Z.ltb 0 n
  | JBool b => b
  | JUndefined | JNull => false
  | JStr _ | JArr _ | JObj _ => coerced_gt_zero v
  end.

(** *** [loadTemplates] (lines 41-102)

    The [try] block spans the [await]: lines 43-58 run when the function is
    called, lines 60-84 when the request has settled, the [catch] and the
    [finally] with whichever part ends the function. *)

(** Lines 43-58, and the [finally] of the early [return]. *)
Definition loadTemplates_begin : M unit :=
  setLoading true ;;
  setError JNull ;;
  tok <- getToken ;;
  if negb (truthy (token_val tok)) then
    try_finally
      (setError (JStr "Not authenticated. Please login again.") ;;
       push "/login")
      (setLoading false)
  else
    send (mkRequest GET "/performance/templates" ("Bearer " ++ interpolate tok)) AwaitList.

(** Lines 54-84, from the [await] on. *)
Definition loadTemplates_try (r : outcome Response) : M unit :=
  res <- await r ;;
  log "Templates API Response:" ;;
  let data := data res in
  let list := normalize data in
  log "Normalized templates list:" ;;
  filteredList <-
    (if isManager && negb isHR then
       fl <- lift (js_filter isActive_not_false list) ;;
       log "Filtered templates for manager (active only):" ;;
       ret fl
     else ret list) ;;
  flen <- lift (get filteredList "length") ;;
  none_left <-
    (if strict_eq flen (JNum 0) then
       len <- lift (get list "length") ;;
       ret (gt_zero len)
     else ret false) ;;
  (if none_left then
     setError (JStr "No active templates available. Please contact HR.")
   else
     flen' <- lift (get filteredList "length") ;;
     if strict_eq flen' (JNum 0) then setError JNull else ret tt) ;;
  setTemplates filteredList.

(** Lines 85-98. *)
Definition loadTemplates_catch (err : Exn) : M unit :=
  log "LOAD TEMPLATES ERROR" ;;
  log "Error response:" ;;
  log "Error status:" ;;
  (if strict_eq (status_of err) (JNum 403) then
     setError (JStr "You do not have permission to view templates")
   else if strict_eq (status_of err) (JNum 401) then
     setError (JStr "Authentication failed. Please login again.") ;;
     push "/login"
   else
     setError (js_or (message_of err)
                     (JStr "Failed to load templates. Please check your connection."))) ;;
  setTemplates (JArr []).

(** The function from the moment its request settles with [r]. *)
Definition loadTemplates_settle (r : outcome Response) : M unit :=
  try_finally
    (try_catch (loadTemplates_try r) loadTemplates_catch)
    (setLoading false).

(** *** [deleteTemplate] (lines 107-133)

    [accepted] is the user's answer to [confirm("Delete this template?")]. *)

(** Lines 108-118. *)
Definition deleteTemplate_begin (id : string) (accepted : bool) : M unit :=
  if negb accepted then ret tt
  else
    setOperationLoading (Some ("delete-" ++ id)) ;;
    tok <- getToken ;;
    send (mkRequest DELETE ("/performance/templates/" ++ id) ("Bearer " ++ interpolate tok))
         (AwaitDelete id).

(** Lines 114-120, from the [await] on.  [loadTemplates()] is called and not
    awaited: it runs up to its own [await] (or to its end, when there is no
    token), and no failure of it reaches this [try]. *)
Definition deleteTemplate_try (r : outcome Response) : M unit :=
  _ <- await r ;;
  loadTemplates_begin.

(** Lines 121-129. *)
Definition deleteTemplate_catch (err : Exn) : M unit :=
  log "DELETE TEMPLATE ERROR" ;;
  if strict_eq (status_of err) (JNum 403) then
    setError (JStr "You do not have permission")
  else if strict_eq (status_of err) (JNum 400) then
    setError (js_or (message_of err) (JStr "Failed to delete template"))
  else
    setError (JStr "Failed to delete template").

Definition deleteTemplate_settle (r : outcome Response) : M unit :=
  try_finally
    (try_catch (deleteTemplate_try r) deleteTemplate_catch)
    (setOperationLoading None).

(** *** The event loop: one outstanding request settles *)

Fixpoint remove_nth {A : Type} (i : nat) (l : list A) : list A :=
  match i, l with
  | _, [] => []
  | O, _ :: l' => l'
  | S i', x :: l' => x :: remove_nth i' l'
  end.

Definition resume (s : Suspended) (r : outcome Response) : M unit :=
  match s with
  | AwaitList => loadTemplates_settle r
  | AwaitDelete _ => deleteTemplate_settle r
  end.

(** The [i]-th waiting invocation gets the answer [r] and runs to its next
    [await] or to its end. *)
Definition settle (i : nat) (r : outcome Response) (w : World) : outcome unit * World :=
  match nth_error (inflight w) i with
  | None => (Returned tt, w)
  | Some s =>
      resume s r
        (mkWorld (view w) (token w) (requests w) (remove_nth i (inflight w))
                 (pushes w) (console w))
  end.

(** *** What the render shows (lines 172-211) *)

(** [{error && <div>Error: {error}</div>}] *)
Definition shows_error (v : View) : bool := truthy (error v).

(** [{!loading && !error && templates.length === 0 && <No Templates Found>}] *)
Definition shows_no_templates_found (v : View) : outcome bool :=
  if negb (loading v) && negb (truthy (error v)) then
    match get (templates v) "length" with
    | Returned n => Returned (strict_eq n (JNum 0))
    | Threw e => Threw e
    end
  else Returned false.

(** [{!loading && templates.length > 0 && <table>}] *)
Definition shows_table (v : View) : outcome bool :=
  if negb (loading v) then
    match get (templates v) "length" with
    | Returned n => Returned (gt_zero n)
    | Threw e => Threw e
    end
  else Returned false.

End Page.

(** The state of [useState] at mount, with nothing sent yet. *)
Definition initial_view : View := mkView (JArr []) true JNull None.

Definition initial_world (tok : option string) : World :=
  mkWorld initial_view tok [] [] [] [].

(** * The server's entry point ([bootstrap]) *)

(** [process.env]: a variable is a string, or is not set. *)
Definition ProcessEnv : Type := string -> option string.

(** [process.env.PORT || 3001] is a string or a number. *)
Inductive Port : Type :=
| PortString (s : string)
| PortNumber (n : Z).

(** [`${PORT}`] *)
Definition port_text (p : Port) : string :=
  match p with
  | PortString s => s
  | PortNumber n => NilZero.string_of_int (Z.to_int n)
  end.

(** What [bootstrap] does to the world outside, in order. *)
Inductive Event : Type :=
| DotenvConfig
| ConsoleLog (label : string) (value : option string)
| NestCreate
| UseJson (limit : string)
| UseUrlencoded (limit : string) (extended : bool)
| EnableCors (origin : string) (credentials : bool)
             (methods : list string) (allowedHeaders : list string)
| SwaggerSetup (path title description version : string)
| Listen (port : Port).

(** How an awaited call of the framework ends. *)
Inductive Settled : Type :=
| Resolved
| Rejected.

Section Bootstrap.

(** [dotenv.config()]: the environment once the [.env] file is loaded. *)
Variable dotenv_config : ProcessEnv -> ProcessEnv.

(** [NestFactory.create(AppModule)] and [app.listen(port)]. *)
Variable create : Settled.
Variable listen : Port -> Settled.

(** [process.env.PORT || 3001]: the empty string is falsy. *)
Definition PORT (env : ProcessEnv) : Port :=
  match env "PORT" with
  | Some s => if String.eqb s "" then PortNumber 3001 else PortString s
  | None => PortNumber 3001
  end.

(** Lines 13-38, once the application is created. *)
Definition configure : list Event :=
  [ UseJson "10mb";
    UseUrlencoded "10mb" true;
    EnableCors "http://localhost:3000" true
               ["GET"; "POST"; "PATCH"; "PUT"; "DELETE"]
               ["Content-Type"; "Authorization"];
    SwaggerSetup "api" "Employee Profile API"
      "API documentation for Employee Profile, Change Requests, Disputes, and Manager Views"
      "1.0" ].

(** Lines 43-44. *)
Definition readiness (p : Port) : list Event :=
  [ ConsoleLog ("Backend running at http://localhost:" ++ port_text p ++ " 🚀") None;
    ConsoleLog ("Swagger running at http://localhost:" ++ port_text p ++ "/api 🟢") None ].

(** [bootstrap()]: how its promise settles, and what it did. *)
Definition bootstrap (env0 : ProcessEnv) : Settled * list Event :=
  let env := dotenv_config env0 in
  let start := [ DotenvConfig; ConsoleLog "BACKEND DB URI =>" (env "MONGO_URI") ] in
  match create with
  | Rejected => (Rejected, start ++ [NestCreate])
  | Resolved =>
      let port := PORT env in
      match listen port with
      | Rejected => (Rejected, start ++ [NestCreate] ++ configure ++ [Listen port])
      | Resolved =>
          (Resolved, start ++ [NestCreate] ++ configure ++ [Listen port] ++ readiness port)
      end
  end%list.

End Bootstrap.

(** The ports [app.listen] was called with, in order. *)
Definition listens (evs : list Event) : list Port :=
  flat_map (fun e => match e with Listen p => [p] | _ => [] end) evs.

(** * The specification's notions *)

(** The normalization as the specification words it: the three accepted
    shapes are a bare sequence, an object whose [items] is a sequence and an
    object whose [data] is a sequence; the first shape that matches gives the
    result, and a body of no accepted shape gives the empty sequence. *)
Definition normalize_as_specified (body : JsVal) : JsVal :=
  match body with
  | JArr xs => JArr xs
  | JObj fs =>
      match lookup "items" fs with
      | Some (JArr xs) => JArr xs
      | _ =>
          match lookup "data" fs with
          | Some (JArr xs) => JArr xs
          | _ => JArr []
          end
      end
  | _ => JArr []
  end.

(** A field that holds a sequence or nothing ([null], or no such field). *)
Definition sequence_or_nothing (v : JsVal) : bool := nullish v || isArray v.

(** The bodies the page's normalization treats as the specification says:
    [items], and [data] when [items] holds nothing, hold a sequence or
    nothing. *)
Definition fields_are_sequences (body : JsVal) : bool :=
  isArray body
  || (sequence_or_nothing (get_opt body "items")
      && (negb (nullish (get_opt body "items"))
          || sequence_or_nothing (get_opt body "data"))).

(** An entry whose active flag is not the boolean [false]. *)
Definition not_explicitly_inactive (t : JsVal) : bool :=
  negb (strict_eq (prop t "isActive") (JBool false)).

(** What a role is shown of the sequence [xs]. *)
Definition role_filtered (currentRole : JsVal) (xs : list JsVal) : list JsVal :=
  if isManager currentRole && negb (isHR currentRole)
  then filter not_explicitly_inactive xs
  else xs.

(** * Sample states and answers *)

(** A manager's load of one inactive and two other templates, from the state
    the page is in once [loadTemplates] has sent its request. *)
Definition sample_world : World :=
  exec loadTemplates_begin (initial_world (Some "tok")).

Definition sample_list : list JsVal :=
  [ JObj [("_id", JStr "1"); ("name", JStr "Q1 Review"); ("isActive", JBool false)];
    JObj [("_id", JStr "2"); ("name", JStr "Q2 Review")];
    JObj [("_id", JStr "3"); ("name", JStr "Q3 Review"); ("isActive", JBool true)] ].

Definition sample_response : Response :=
  mkResponse 200 (JObj [("items", JArr sample_list)]).

(** The only template is inactive: the scenario of the specification. *)
Definition inactive_only : Response :=
  mkResponse 200
    (JObj [("data", JArr [JObj [("_id", JStr "1"); ("name", JStr "Q1 Review");
                                ("templateType", JStr "self"); ("isActive", JBool false)]])]).

(** An environment that sets [PORT], and one that sets nothing. *)
Definition env_port_8080 : ProcessEnv :=
  fun k => if String.eqb k "PORT" then Some "8080" else None.

Definition env_empty : ProcessEnv := fun _ => None.

(** The state while the delete of template 7 is outstanding. *)
Definition deleting_world : World :=
  exec (deleteTemplate_begin "7" true)
       (mkWorld (mkView (JArr sample_list) false JNull None) (Some "tok") [] [] [] []).

(** * The rest of the page: mount, controls and event loop *)

(** Lines 16-20: the effect that sends every other role away. *)
Definition guard (currentRole : JsVal) : M unit :=
  if negb (isHR currentRole) && negb (isManager currentRole)
  then push "/dashboard"
  else ret tt.

(** The effects of the first render, in the order they are declared (lines
    16-39): the guard, the load, and the load again when the router is
    already ready.  Neither call of [loadTemplates] is awaited. *)
Definition mount (currentRole : JsVal) (isReady : bool) : M unit :=
  guard currentRole ;;
  loadTemplates_begin ;;
  if isReady then loadTemplates_begin else ret tt.

(** Line 151 and line 159. *)
Definition shows_create_button (currentRole : JsVal) : bool := isHR currentRole.
Definition shows_read_only_banner (currentRole : JsVal) : bool := isManager currentRole.

(** Line 235: the delete control of a row. *)
Definition shows_delete_button (currentRole : JsVal) : bool := isHR currentRole.

(** Line 239: [disabled={operationLoading === `delete-${t._id}`}], for a row
    whose [_id] is the string [id]. *)
Definition delete_disabled (v : View) (id : string) : bool :=
  match operationLoading v with
  | Some m => String.eqb m ("delete-" ++ id)
  | None => false
  end.

(** Another part of the application writes or removes the token. *)
Definition storage_set (tok : option string) : M unit :=
  fun w => (Returned tt,
            mkWorld (view w) tok (requests w) (inflight w) (pushes w) (console w)).

(** What can happen to the mounted page, for the role read at its render.
    [ClickDelete] is offered for every identifier and at any time, which is
    more than the rendered buttons allow. *)
Inductive Action : Type :=
| RouterReady                                (* lines 35-39: router.isReady turns true *)
| ClickBack                                  (* line 143 *)
| ClickDelete (id : string) (accepted : bool)  (* line 238 *)
| Answer (i : nat) (r : outcome Response)    (* an outstanding request settles *)
| StorageChange (tok : option string)
| RouterChange.                              (* lines 16-20 run again *)

Definition step (currentRole : JsVal) (coerced : JsVal -> bool) (a : Action) : M unit :=
  match a with
  | RouterReady => loadTemplates_begin
  | ClickBack => push "/dashboard"
  | ClickDelete id accepted => deleteTemplate_begin id accepted
  | Answer i r => settle currentRole coerced i r
  | StorageChange tok => storage_set tok
  | RouterChange => guard currentRole
  end.

(** The states of the page: those after the mount, and after any sequence of
    actions from there. *)
Inductive reachable (currentRole : JsVal) (coerced : JsVal -> bool) : World -> Prop :=
| reach_mount (tok : option string) (isReady : bool) :
    reachable currentRole coerced (exec (mount currentRole isReady) (initial_world tok))
| reach_step (w : World) (a : Action) :
    reachable currentRole coerced w ->
    reachable currentRole coerced (exec (step currentRole coerced a) w).

(** A request of the shape the page builds: the list request with a token
    that is not empty, or a delete request for some identifier. *)
Definition page_request (q : Request) : Prop :=
  match method q with
  | GET =>
      url q = "/performance/templates"
      /\ exists t, t <> "" /\ authorization q = "Bearer " ++ t
  | DELETE =>
      exists id tok,
        url q = "/performance/templates/" ++ id
        /\ authorization q = "Bearer " ++ interpolate tok
  end.

(** [loadTemplates] from its call to its end, when the request it sends is
    answered with [r] before anything else happens. *)
Definition load_and_answer (currentRole : JsVal) (coerced : JsVal -> bool)
           (r : outcome Response) (w : World) : World :=
  snd (settle currentRole coerced (List.length (inflight w)) r (exec loadTemplates_begin w)).

(** A confirmed [deleteTemplate] from its call to the end of the reload it
    starts: the delete request is answered with [rd], then the list request
    with [rl]. *)
Definition delete_and_reload (currentRole : JsVal) (coerced : JsVal -> bool)
           (id : string) (rd rl : outcome Response) (w : World) : World :=
  let n := List.length (inflight w) in
  let w1 := exec (deleteTemplate_begin id true) w in
  let w2 := snd (settle currentRole coerced n rd w1) in
  snd (settle currentRole coerced n rl w2).

(** Where the router may be sent. *)
Definition page_target (path : string) : Prop :=
  path = "/login" \/ path = "/dashboard".

(** What holds of the page whatever it has been through, the loading
    indicator apart. *)
Definition page_sound (w : World) : Prop :=
  (forall m, operationLoading (view w) = Some m ->
             exists id, m = "delete-" ++ id /\ In (AwaitDelete id) (inflight w))
  /\ Forall page_request (requests w)
  /\ Forall page_target (pushes w)
  /\ nullish (templates (view w)) = false.

(** The loading indicator is on only while a list request is outstanding. *)
Definition spinner_sound (w : World) : Prop :=
  loading (view w) = true -> In AwaitList (inflight w).

Definition is_nil {A : Type} (l : list A) : bool :=
  match l with
  | [] => true
  | _ => false
  end.

(** * Properties *)

Example normalize_bare :
  normalize (JArr [JNum 1; JNum 2]) = JArr [JNum 1; JNum 2].
Proof. reflexivity. Qed.

Example normalize_items :
  normalize (JObj [("total", JNum 2); ("items", JArr [JNum 1; JNum 2])]) = JArr [JNum 1; JNum 2].
Proof. reflexivity. Qed.

Example normalize_data :
  normalize (JObj [("items", JNull); ("data", JArr [JNum 1])]) = JArr [JNum 1].
Proof. reflexivity. Qed.

Example normalize_string :
  normalize (JStr "oops") = JArr [].
Proof. reflexivity. Qed.

Example port_text_default : port_text (PortNumber 3001) = "3001".
Proof. reflexivity. Qed.

(** ** Normalization *)

Lemma get_opt_object (fs : list (string * JsVal)) (k : string) :
  get_opt (JObj fs) k = match lookup k fs with Some x => x | None => JUndefined end.
Proof. reflexivity. Qed.

Lemma normalize_array (xs : list JsVal) : normalize (JArr xs) = JArr xs.
Proof. reflexivity. Qed.

Lemma normalize_never_nullish (body : JsVal) : nullish (normalize body) = false.
Proof.
  unfold normalize, nullish_or.
  destruct (isArray body) eqn:Ha.
  - destruct body; simpl in *; congruence.
  - destruct (nullish (get_opt body "items")) eqn:Hi; [|exact Hi].
    destruct (nullish (get_opt body "data")) eqn:Hd; [reflexivity | exact Hd].
Qed.

(** C1 (as stated, refuted).  The body [{items: 5}] has none of the three
    accepted shapes, so the normalization is said to give the empty sequence;
    the page's normalization gives [5], which is no sequence at all. *)
Lemma normalize_ill_typed_items_kept :
  normalize_as_specified (JObj [("items", JNum 5)]) = JArr []
  /\ normalize (JObj [("items", JNum 5)]) = JNum 5
  /\ isArray (normalize (JObj [("items", JNum 5)])) = false
  /\ normalize (JObj [("items", JNum 5)]) <> normalize_as_specified (JObj [("items", JNum 5)]).
Proof.
  repeat split; discriminate.
Qed.

(** C1 (amended).  For a bare sequence, for an object whose [items] is a
    sequence, and for an object whose [items] is absent or [null] and whose
    [data] is a sequence, the normalization gives that sequence; it gives the
    empty sequence when the body is not a sequence and each of [items] and
    [data] is absent or [null].  In a body that is not a sequence, a value of
    [items] that is not [null] is the result whatever it is, and failing that
    a value of [data] that is not [null]: the page's normalization is the one
    of the specification exactly on the bodies whose [items] and [data] hold
    a sequence or nothing. *)
Theorem normalize_shapes :
  (forall xs, normalize (JArr xs) = JArr xs)
  /\ (forall fs xs,
      lookup "items" fs = Some (JArr xs) ->
      normalize (JObj fs) = JArr xs)
  /\ (forall fs xs,
      nullish (get_opt (JObj fs) "items") = true ->
      lookup "data" fs = Some (JArr xs) ->
      normalize (JObj fs) = JArr xs)
  /\ (forall body,
      isArray body = false ->
      nullish (get_opt body "items") = true ->
      nullish (get_opt body "data") = true ->
      normalize body = JArr [])
  /\ (forall body,
      isArray body = false ->
      nullish (get_opt body "items") = false ->
      normalize body = get_opt body "items")
  /\ (forall body,
      isArray body = false ->
      nullish (get_opt body "items") = true ->
      nullish (get_opt body "data") = false ->
      normalize body = get_opt body "data")
  /\ (forall body,
      fields_are_sequences body = true <-> normalize body = normalize_as_specified body).
Proof.
  split; [reflexivity|].
  split.
  { intros fs xs Hi; unfold normalize, nullish_or; simpl.
    rewrite get_opt_object, Hi; reflexivity. }
  split.
  { intros fs xs Hi Hd; unfold normalize, nullish_or; simpl.
    rewrite Hi, get_opt_object, Hd; reflexivity. }
  split.
  { intros body Ha Hi Hd; unfold normalize, nullish_or; rewrite Ha, Hi, Hd; reflexivity. }
  split.
  { intros body Ha Hi; unfold normalize, nullish_or; rewrite Ha, Hi; reflexivity. }
  split.
  { intros body Ha Hi Hd; unfold normalize, nullish_or; rewrite Ha, Hi, Hd; reflexivity. }
  intros body.
  unfold fields_are_sequences, sequence_or_nothing, normalize, nullish_or.
  destruct body as [ | | b | n | s | xs | fs ]; simpl;
    try (split; [reflexivity | intros _; reflexivity]).
  rewrite !get_opt_object.
  destruct (lookup "items" fs) as [[ | | b | n | s | xs | gs ]|]; simpl;
    try (destruct (lookup "data" fs) as [[ | | b' | n' | s' | xs' | gs' ]|]; simpl);
    split; intros H; first [reflexivity | discriminate].
Qed.

Lemma normalize_shapes_witness :
  normalize (JObj [("total", JNum 1); ("items", JArr [JNum 7])]) = JArr [JNum 7]
  /\ normalize (JObj [("items", JNull); ("data", JArr [JNum 7])]) = JArr [JNum 7]
  /\ normalize (JObj [("total", JNum 0)]) = JArr []
  /\ normalize (JObj [("items", JStr "none")]) = JStr "none".
Proof.
  destruct normalize_shapes as (_ & Hitems & Hdata & Hnone & Hkept & _).
  split; [|split; [|split]].
  - exact (Hitems [("total", JNum 1); ("items", JArr [JNum 7])] [JNum 7] eq_refl).
  - exact (Hdata [("items", JNull); ("data", JArr [JNum 7])] [JNum 7] eq_refl eq_refl).
  - exact (Hnone (JObj [("total", JNum 0)]) eq_refl eq_refl eq_refl).
  - exact (Hkept (JObj [("items", JStr "none")]) eq_refl eq_refl).
Defined.

(** ** Loading: the role's projection *)

Lemma isActive_not_false_returned (t : JsVal) (b : bool) :
  isActive_not_false t = Returned b -> b = not_explicitly_inactive t.
Proof.
  unfold isActive_not_false, get, not_explicitly_inactive.
  destruct (nullish t); [discriminate|].
  intros H; injection H as <-; reflexivity.
Qed.

Lemma filter_throwing_returned (xs ys : list JsVal) :
  filter_throwing isActive_not_false xs = Returned ys ->
  ys = filter not_explicitly_inactive xs.
Proof.
  revert ys; induction xs as [|x xs IH]; intros ys; simpl.
  - intros H; injection H as <-; reflexivity.
  - destruct (isActive_not_false x) as [b|e] eqn:Hx; [|discriminate].
    destruct (filter_throwing isActive_not_false xs) as [zs|e]; [|discriminate].
    intros H; injection H as <-.
    rewrite <- (isActive_not_false_returned _ _ Hx), (IH zs eq_refl).
    reflexivity.
Qed.

(** The filter of the manager's branch goes through exactly when no entry is
    [null]. *)
Lemma filter_throwing_total (xs : list JsVal) :
  forallb (fun t => negb (nullish t)) xs = true ->
  filter_throwing isActive_not_false xs = Returned (filter not_explicitly_inactive xs).
Proof.
  induction xs as [|x xs IH]; simpl; [reflexivity|].
  intros H; apply andb_prop in H as [Hx Hxs].
  unfold isActive_not_false at 1, get.
  destruct (nullish x); [discriminate|].
  rewrite (IH Hxs); reflexivity.
Qed.

Lemma length_zero_eqb {A : Type} (l : list A) :
  Z.eqb (Z.of_nat (List.length l)) 0 = match l with [] => true | _ => false end.
Proof. destruct l; reflexivity. Qed.

Lemma length_pos_ltb {A : Type} (l : list A) :
  Z.ltb 0 (Z.of_nat (List.length l)) = match l with [] => false | _ => true end.
Proof. destruct l; reflexivity. Qed.

(** The view after a load whose request resolved with a body that normalizes
    to the sequence [xs], and whose [try] block ran to its end. *)
Lemma load_resolved_view (currentRole : JsVal) (coerced : JsVal -> bool)
      (w : World) (res : Response) (xs : list JsVal) :
  normalize (data res) = JArr xs ->
  fst (loadTemplates_try currentRole coerced (Returned res) w) = Returned tt ->
  let r := loadTemplates_settle currentRole coerced (Returned res) w in
  fst r = Returned tt
  /\ templates (view (snd r)) = JArr (role_filtered currentRole xs)
  /\ loading (view (snd r)) = false
  /\ error (view (snd r))
     = match role_filtered currentRole xs, xs with
       | [], _ :: _ => JStr "No active templates available. Please contact HR."
       | [], [] => JNull
       | _ :: _, _ => error (view w)
       end
  /\ operationLoading (view (snd r)) = operationLoading (view w)
  /\ pushes (snd r) = pushes w
  /\ requests (snd r) = requests w.
Proof.
  intros Hn.
  unfold loadTemplates_settle, try_finally, try_catch, loadTemplates_try, role_filtered.
  unfold bind, await, lift, log, ret; simpl.
  rewrite Hn.
  destruct (isManager currentRole && negb (isHR currentRole)); simpl.
  - destruct (filter_throwing isActive_not_false xs) as [ys|e] eqn:Hf; simpl;
      [|discriminate].
    apply filter_throwing_returned in Hf; subst ys.
    unfold get; simpl.
    rewrite length_zero_eqb, length_pos_ltb.
    destruct (filter not_explicitly_inactive xs) as [|y ys]; destruct xs as [|x xs];
      simpl; intros _; repeat split; reflexivity.
  - unfold get; simpl.
    rewrite length_zero_eqb, length_pos_ltb.
    destruct xs as [|x xs]; simpl; intros _; repeat split; reflexivity.
Qed.

(** A load by HR never fails once its request resolved with a sequence. *)
Lemma load_try_not_manager (currentRole : JsVal) (coerced : JsVal -> bool)
      (w : World) (res : Response) :
  isManager currentRole && negb (isHR currentRole) = false ->
  fst (loadTemplates_try currentRole coerced (Returned res) w) = Returned tt.
Proof.
  intros Hr.
  unfold loadTemplates_try, bind, await, lift, log, ret; simpl.
  rewrite Hr; simpl.
  pose proof (normalize_never_nullish (data res)) as Hnn.
  unfold get; rewrite Hnn; simpl.
  destruct (strict_eq (prop (normalize (data res)) "length") (JNum 0)); simpl.
  - destruct (gt_zero coerced (prop (normalize (data res)) "length")); reflexivity.
  - reflexivity.
Qed.

(** C2.  After a successful load (the request resolved with a body that
    normalizes to the sequence [xs], and the [try] block ran to its end): for
    a Manager who is not HR the displayed sequence is the subsequence of [xs],
    in order, of the entries whose active flag is not the boolean [false],
    an entry without the flag being kept; for HR it is [xs]. *)
Theorem displayed_is_role_projection (currentRole : JsVal) (coerced : JsVal -> bool)
        (w : World) (res : Response) (xs : list JsVal) :
  normalize (data res) = JArr xs ->
  fst (loadTemplates_try currentRole coerced (Returned res) w) = Returned tt ->
  let shown := templates (view (exec (loadTemplates_settle currentRole coerced (Returned res)) w)) in
  (isManager currentRole = true -> isHR currentRole = false ->
   shown = JArr (filter not_explicitly_inactive xs))
  /\ (isHR currentRole = true -> shown = JArr xs)
  /\ (forall fs, lookup "isActive" fs = None -> not_explicitly_inactive (JObj fs) = true)
  /\ (forall t, not_explicitly_inactive t = false <-> prop t "isActive" = JBool false).
Proof.
  intros Hn Hok shown.
  destruct (load_resolved_view currentRole coerced w res xs Hn Hok) as (_ & Ht & _).
  unfold exec in shown; subst shown; rewrite Ht; unfold role_filtered.
  repeat split.
  - intros Hm Hh; rewrite Hm, Hh; reflexivity.
  - intros Hh; rewrite Hh, andb_false_r; reflexivity.
  - intros fs Hl; unfold not_explicitly_inactive; simpl; rewrite Hl; reflexivity.
  - unfold not_explicitly_inactive.
    destruct (prop _ _) as [ | | [|] | | | | ]; simpl; discriminate || reflexivity.
  - unfold not_explicitly_inactive; intros ->; reflexivity.
Qed.

Lemma displayed_is_role_projection_witness :
  templates (view (exec (loadTemplates_settle (JStr "MANAGER") (fun _ => false)
                                              (Returned sample_response))
                        sample_world))
  = JArr [ JObj [("_id", JStr "2"); ("name", JStr "Q2 Review")];
           JObj [("_id", JStr "3"); ("name", JStr "Q3 Review"); ("isActive", JBool true)] ].
Proof.
  exact (proj1 (displayed_is_role_projection (JStr "MANAGER") (fun _ => false)
                  sample_world sample_response sample_list eq_refl eq_refl)
               eq_refl eq_refl).
Defined.

(** ** Loading: when nothing is left to show *)

(** C3 (as stated, refuted).  A manager's successful load of a non-empty
    sequence of which the filter keeps nothing: the message is put in the
    error state of the view, and the render shows it in the error panel and
    not the "No Templates Found" panel. *)
Lemma all_inactive_sets_error_state :
  let r := loadTemplates_settle (JStr "MANAGER") (fun _ => false) (Returned inactive_only)
                                sample_world in
  fst r = Returned tt
  /\ templates (view (snd r)) = JArr []
  /\ error (view (snd r)) <> JNull
  /\ shows_error (view (snd r)) = true
  /\ shows_no_templates_found (view (snd r)) = Returned false.
Proof.
  repeat split; discriminate.
Qed.

(** C3 (amended).  After a successful load of the sequence [xs]: when [xs]
    is not empty and the role's projection of it is, the error state of the
    view holds "No active templates available. Please contact HR." (which the
    render shows in its error panel), the displayed collection is empty, and
    the load has ended normally, without a redirect; when [xs] is empty, the
    error state is [null] and the displayed collection is empty. *)
Theorem nothing_left_sets_message (currentRole : JsVal) (coerced : JsVal -> bool)
        (w : World) (res : Response) (xs : list JsVal) :
  normalize (data res) = JArr xs ->
  fst (loadTemplates_try currentRole coerced (Returned res) w) = Returned tt ->
  let r := loadTemplates_settle currentRole coerced (Returned res) w in
  (xs <> [] -> role_filtered currentRole xs = [] ->
   error (view (snd r)) = JStr "No active templates available. Please contact HR."
   /\ shows_error (view (snd r)) = true
   /\ templates (view (snd r)) = JArr []
   /\ fst r = Returned tt
   /\ pushes (snd r) = pushes w)
  /\ (xs = [] ->
      error (view (snd r)) = JNull
      /\ shows_error (view (snd r)) = false
      /\ templates (view (snd r)) = JArr []).
Proof.
  intros Hn Hok r.
  destruct (load_resolved_view currentRole coerced w res xs Hn Hok)
    as (Hr & Ht & _ & He & _ & Hp & _).
  fold r in Hr, Ht, He, Hp.
  split.
  - intros Hxs Hf.
    rewrite Hf in Ht, He.
    destruct xs as [|x xs]; [congruence|].
    unfold shows_error; rewrite He.
    repeat split; assumption.
  - intros ->.
    assert (Hf : role_filtered currentRole [] = [])
      by (unfold role_filtered; destruct (isManager currentRole && negb (isHR currentRole));
          reflexivity).
    rewrite Hf in Ht, He.
    unfold shows_error; rewrite He.
    repeat split; assumption.
Qed.

Lemma nothing_left_sets_message_witness :
  error (view (exec (loadTemplates_settle (JStr "MANAGER") (fun _ => false)
                                          (Returned inactive_only))
                    sample_world))
  = JStr "No active templates available. Please contact HR."
  /\ error (view (exec (loadTemplates_settle (JStr "HR") (fun _ => false)
                                             (Returned (mkResponse 200 (JObj []))))
                       sample_world))
     = JNull.
Proof.
  split.
  - exact (proj1 (proj1 (nothing_left_sets_message (JStr "MANAGER") (fun _ => false)
                           sample_world inactive_only _ eq_refl eq_refl)
                        ltac:(discriminate) eq_refl)).
  - exact (proj1 (proj2 (nothing_left_sets_message (JStr "HR") (fun _ => false)
                           sample_world (mkResponse 200 (JObj [])) [] eq_refl eq_refl)
                        eq_refl)).
Defined.

(** ** Loading: no token, and failures *)

(** C4.  A load when the storage holds no token: no request is sent and no
    invocation is left waiting, the error state is "Not authenticated. Please
    login again.", and the router is sent to [/login]; the function ends
    there, with the loading indicator cleared. *)
Theorem load_without_token (w : World) :
  token w = None ->
  let r := loadTemplates_begin w in
  fst r = Returned tt
  /\ requests (snd r) = requests w
  /\ inflight (snd r) = inflight w
  /\ error (view (snd r)) = JStr "Not authenticated. Please login again."
  /\ pushes (snd r) = (pushes w ++ ["/login"])%list
  /\ loading (view (snd r)) = false
  /\ templates (view (snd r)) = templates (view w).
Proof.
  intros Ht.
  unfold loadTemplates_begin, bind, getToken, try_finally; simpl.
  rewrite Ht; simpl.
  repeat split.
Qed.

Lemma load_without_token_witness :
  let r := loadTemplates_begin (initial_world None) in
  fst r = Returned tt
  /\ requests (snd r) = []
  /\ inflight (snd r) = []
  /\ error (view (snd r)) = JStr "Not authenticated. Please login again."
  /\ pushes (snd r) = ["/login"]
  /\ loading (view (snd r)) = false
  /\ templates (view (snd r)) = JArr [].
Proof.
  exact (load_without_token (initial_world None) eq_refl).
Defined.

(** With a token the request leaves, carrying it. *)
Lemma load_with_token (w : World) (t : string) :
  token w = Some t -> t <> "" ->
  let r := loadTemplates_begin w in
  fst r = Returned tt
  /\ requests (snd r) = (requests w ++ [mkRequest GET "/performance/templates" ("Bearer " ++ t)])%list
  /\ inflight (snd r) = (inflight w ++ [AwaitList])%list
  /\ pushes (snd r) = pushes w
  /\ templates (view (snd r)) = templates (view w)
  /\ operationLoading (view (snd r)) = operationLoading (view w).
Proof.
  intros Ht Hne.
  unfold loadTemplates_begin, bind, getToken, try_finally; simpl.
  rewrite Ht; simpl.
  apply String.eqb_neq in Hne; rewrite Hne; simpl.
  repeat split.
Qed.

Lemma deleteTemplate_try_resolved (res : Response) (w : World) :
  deleteTemplate_try (Returned res) w = loadTemplates_begin w.
Proof. reflexivity. Qed.

Lemma load_begin_returns (w : World) :
  fst (loadTemplates_begin w) = Returned tt
  /\ templates (view (snd (loadTemplates_begin w))) = templates (view w).
Proof.
  unfold loadTemplates_begin, bind, getToken, try_finally; simpl.
  destruct (truthy (token_val (token w))); simpl; split; reflexivity.
Qed.

(** Whatever its request brings, [loadTemplates] ends normally. *)
Lemma load_settle_returns (currentRole : JsVal) (coerced : JsVal -> bool)
      (r : outcome Response) (w : World) :
  fst (loadTemplates_settle currentRole coerced r w) = Returned tt
  /\ loading (view (snd (loadTemplates_settle currentRole coerced r w))) = false.
Proof.
  unfold loadTemplates_settle, try_finally, try_catch.
  destruct (loadTemplates_try currentRole coerced r w) as [[[]|e] w1]; simpl.
  - split; reflexivity.
  - unfold loadTemplates_catch, bind, log; simpl.
    destruct (strict_eq (status_of e) (JNum 403)); simpl; [split; reflexivity|].
    destruct (strict_eq (status_of e) (JNum 401)); simpl; split; reflexivity.
Qed.

(** So does [deleteTemplate]. *)
Lemma delete_settle_returns (r : outcome Response) (w : World) :
  fst (deleteTemplate_settle r w) = Returned tt
  /\ operationLoading (view (snd (deleteTemplate_settle r w))) = None.
Proof.
  unfold deleteTemplate_settle, try_finally, try_catch.
  destruct r as [res|e].
  - rewrite deleteTemplate_try_resolved.
    destruct (load_begin_returns w) as [Ho _].
    destruct (loadTemplates_begin w) as [o w1]; simpl in *; subst o.
    split; reflexivity.
  - unfold deleteTemplate_try, deleteTemplate_catch, bind, await, lift, log; simpl.
    destruct (strict_eq (status_of e) (JNum 403)); simpl; [split; reflexivity|].
    destruct (strict_eq (status_of e) (JNum 400)); simpl; split; reflexivity.
Qed.

(** No answer to an outstanding request leaves a rejection unhandled. *)
Lemma settle_returns (currentRole : JsVal) (coerced : JsVal -> bool)
      (i : nat) (r : outcome Response) (w : World) :
  fst (settle currentRole coerced i r w) = Returned tt.
Proof.
  unfold settle.
  destruct (nth_error (inflight w) i) as [[|id]|]; simpl.
  - apply load_settle_returns.
  - apply delete_settle_returns.
  - reflexivity.
Qed.

(** A failed delete does not use the router. *)
Lemma delete_failure_keeps_route (err : Exn) (w : World) :
  pushes (exec (deleteTemplate_settle (Threw err)) w) = pushes w.
Proof.
  unfold exec, deleteTemplate_settle, try_finally, try_catch, deleteTemplate_try.
  unfold deleteTemplate_catch, bind, await, lift, log; simpl.
  destruct (strict_eq (status_of err) (JNum 403)); simpl; [reflexivity|].
  destruct (strict_eq (status_of err) (JNum 400)); reflexivity.
Qed.

Lemma strict_eq_num (v : JsVal) (n : Z) :
  strict_eq v (JNum n) = true <-> v = JNum n.
Proof.
  destruct v; simpl; split; try discriminate; try congruence.
  - intros H; apply Z.eqb_eq in H; congruence.
  - intros H; injection H as ->; apply Z.eqb_refl.
Qed.

(** C5.  A load whose request fails with [err]: the failure is caught (the
    function ends normally), the displayed collection is emptied, the loading
    indicator is cleared and no further request is sent.  With status 403 the
    error state is the permission message, without redirect; with status 401
    it is the authentication message, and the router is sent to [/login];
    otherwise it is the message of the server's answer when there is one (a
    truthy [message]: an empty string counts as none) and else the
    connectivity message, without redirect. *)
Theorem load_failure_mapping (currentRole : JsVal) (coerced : JsVal -> bool)
        (w : World) (err : Exn) :
  let r := loadTemplates_settle currentRole coerced (Threw err) w in
  fst r = Returned tt
  /\ templates (view (snd r)) = JArr []
  /\ loading (view (snd r)) = false
  /\ requests (snd r) = requests w
  /\ (status_of err = JNum 403 ->
      error (view (snd r)) = JStr "You do not have permission to view templates"
      /\ pushes (snd r) = pushes w)
  /\ (status_of err = JNum 401 ->
      error (view (snd r)) = JStr "Authentication failed. Please login again."
      /\ pushes (snd r) = (pushes w ++ ["/login"])%list)
  /\ (status_of err <> JNum 403 -> status_of err <> JNum 401 ->
      pushes (snd r) = pushes w
      /\ (truthy (message_of err) = true -> error (view (snd r)) = message_of err)
      /\ (truthy (message_of err) = false ->
          error (view (snd r))
          = JStr "Failed to load templates. Please check your connection.")).
Proof.
  unfold loadTemplates_settle, try_finally, try_catch, loadTemplates_try.
  unfold loadTemplates_catch, bind, await, lift, log; simpl.
  destruct (strict_eq (status_of err) (JNum 403)) eqn:E3; simpl;
    [|destruct (strict_eq (status_of err) (JNum 401)) eqn:E1; simpl];
    repeat split; intros;
    try reflexivity;
    try (match goal with
         | H : status_of err = _ |- _ => rewrite H in *; simpl in *; discriminate
         end);
    try (exfalso;
         match goal with
         | H : status_of err <> JNum ?n, E : strict_eq (status_of err) (JNum ?n) = true |- _ =>
             apply strict_eq_num in E; contradiction
         end);
    unfold js_or;
    match goal with
    | H : truthy _ = _ |- _ => rewrite H; reflexivity
    end.
Qed.

Lemma load_failure_mapping_witness :
  error (view (exec (loadTemplates_settle (JStr "HR") (fun _ => false)
                       (Threw (AxiosError (Some (mkResponse 403 JNull)))))
                    sample_world))
  = JStr "You do not have permission to view templates"
  /\ pushes (exec (loadTemplates_settle (JStr "HR") (fun _ => false)
                     (Threw (AxiosError (Some (mkResponse 401 JNull)))))
                  sample_world)
     = ["/login"]
  /\ error (view (exec (loadTemplates_settle (JStr "HR") (fun _ => false)
                          (Threw (AxiosError (Some (mkResponse 500
                                    (JObj [("message", JStr "Database is down")]))))))
                       sample_world))
     = JStr "Database is down"
  /\ error (view (exec (loadTemplates_settle (JStr "HR") (fun _ => false)
                          (Threw (AxiosError None)))
                       sample_world))
     = JStr "Failed to load templates. Please check your connection.".
Proof.
  split; [|split; [|split]].
  - pose proof (load_failure_mapping (JStr "HR") (fun _ => false) sample_world
                  (AxiosError (Some (mkResponse 403 JNull))))
      as (_ & _ & _ & _ & H & _).
    exact (proj1 (H eq_refl)).
  - pose proof (load_failure_mapping (JStr "HR") (fun _ => false) sample_world
                  (AxiosError (Some (mkResponse 401 JNull))))
      as (_ & _ & _ & _ & _ & H & _).
    exact (proj2 (H eq_refl)).
  - pose proof (load_failure_mapping (JStr "HR") (fun _ => false) sample_world
                  (AxiosError (Some (mkResponse 500
                     (JObj [("message", JStr "Database is down")])))))
      as (_ & _ & _ & _ & _ & _ & H).
    refine (proj1 (proj2 (H _ _)) eq_refl); discriminate.
  - pose proof (load_failure_mapping (JStr "HR") (fun _ => false) sample_world
                  (AxiosError None))
      as (_ & _ & _ & _ & _ & _ & H).
    refine (proj2 (proj2 (H _ _)) eq_refl); discriminate.
Defined.

(** ** Deleting *)

(** C6.  A delete whose confirmation the user declines: the function returns
    at once and leaves everything as it was: no request is sent, and the
    displayed collection, the error state, the loading indicator and the
    in-flight marker are those of before. *)
Theorem delete_declined (id : string) (accepted : bool) (w : World) :
  accepted = false ->
  let r := deleteTemplate_begin id accepted w in
  r = (Returned tt, w)
  /\ requests (snd r) = requests w
  /\ inflight (snd r) = inflight w
  /\ templates (view (snd r)) = templates (view w)
  /\ error (view (snd r)) = error (view w)
  /\ loading (view (snd r)) = loading (view w)
  /\ operationLoading (view (snd r)) = operationLoading (view w).
Proof.
  intros ->; unfold deleteTemplate_begin; simpl.
  repeat split.
Qed.

Lemma delete_declined_witness :
  deleteTemplate_begin "7" false sample_world = (Returned tt, sample_world).
Proof.
  exact (proj1 (delete_declined "7" false sample_world eq_refl)).
Defined.

(** C7.  A delete whose request fails with [err]: the failure is caught, the
    displayed collection is the one of before, the in-flight marker is
    cleared and no request is sent.  With status 403 the error state is the
    permission message; with status 400 it is the message of the server's
    answer when there is one (a truthy [message]: an empty string counts as
    none) and else "Failed to delete template"; with any other failure it is
    "Failed to delete template". *)
Theorem delete_failure_mapping (w : World) (err : Exn) :
  let r := deleteTemplate_settle (Threw err) w in
  fst r = Returned tt
  /\ templates (view (snd r)) = templates (view w)
  /\ operationLoading (view (snd r)) = None
  /\ requests (snd r) = requests w
  /\ pushes (snd r) = pushes w
  /\ (status_of err = JNum 403 ->
      error (view (snd r)) = JStr "You do not have permission")
  /\ (status_of err = JNum 400 ->
      (truthy (message_of err) = true -> error (view (snd r)) = message_of err)
      /\ (truthy (message_of err) = false ->
          error (view (snd r)) = JStr "Failed to delete template"))
  /\ (status_of err <> JNum 403 -> status_of err <> JNum 400 ->
      error (view (snd r)) = JStr "Failed to delete template").
Proof.
  unfold deleteTemplate_settle, try_finally, try_catch, deleteTemplate_try.
  unfold deleteTemplate_catch, bind, await, lift, log; simpl.
  destruct (strict_eq (status_of err) (JNum 403)) eqn:E3; simpl;
    [|destruct (strict_eq (status_of err) (JNum 400)) eqn:E0; simpl];
    repeat split; intros;
    try reflexivity;
    try (match goal with
         | H : status_of err = _ |- _ => rewrite H in *; simpl in *; discriminate
         end);
    try (exfalso;
         match goal with
         | H : status_of err <> JNum ?n, E : strict_eq (status_of err) (JNum ?n) = true |- _ =>
             apply strict_eq_num in E; contradiction
         end);
    unfold js_or;
    match goal with
    | H : truthy _ = _ |- _ => rewrite H; reflexivity
    end.
Qed.

Lemma delete_failure_mapping_witness :
  error (view (exec (deleteTemplate_settle (Threw (AxiosError (Some (mkResponse 403 JNull)))))
                    deleting_world))
  = JStr "You do not have permission"
  /\ error (view (exec (deleteTemplate_settle
                          (Threw (AxiosError (Some (mkResponse 400
                                    (JObj [("message", JStr "Template is in use")]))))))
                       deleting_world))
     = JStr "Template is in use"
  /\ error (view (exec (deleteTemplate_settle (Threw (AxiosError (Some (mkResponse 500 JNull)))))
                       deleting_world))
     = JStr "Failed to delete template".
Proof.
  split; [|split].
  - pose proof (delete_failure_mapping deleting_world
                  (AxiosError (Some (mkResponse 403 JNull))))
      as (_ & _ & _ & _ & _ & H & _).
    exact (H eq_refl).
  - pose proof (delete_failure_mapping deleting_world
                  (AxiosError (Some (mkResponse 400
                     (JObj [("message", JStr "Template is in use")])))))
      as (_ & _ & _ & _ & _ & _ & H & _).
    exact (proj1 (H eq_refl) eq_refl).
  - pose proof (delete_failure_mapping deleting_world
                  (AxiosError (Some (mkResponse 500 JNull))))
      as (_ & _ & _ & _ & _ & _ & _ & H).
    refine (H _ _); discriminate.
Defined.

(** C8.  A confirmed delete whose request succeeds: what follows is one call
    of [loadTemplates] and the clearing of the in-flight marker, nothing
    else.  The displayed collection is the one of before (the deleted entry
    stays until the reload brings the new list), and with a token in the
    storage exactly one request, the list request, is sent and one invocation
    of the load waits for its answer. *)
Theorem delete_success_reloads_once (w : World) (res : Response) :
  let r := deleteTemplate_settle (Returned res) w in
  fst r = Returned tt
  /\ snd r = exec (setOperationLoading None) (exec loadTemplates_begin w)
  /\ templates (view (snd r)) = templates (view w)
  /\ operationLoading (view (snd r)) = None
  /\ (forall t, token w = Some t -> t <> "" ->
      requests (snd r)
      = (requests w ++ [mkRequest GET "/performance/templates" ("Bearer " ++ t)])%list
      /\ inflight (snd r) = (inflight w ++ [AwaitList])%list).
Proof.
  unfold deleteTemplate_settle, try_finally, try_catch.
  rewrite deleteTemplate_try_resolved.
  unfold exec.
  destruct (load_begin_returns w) as [Ho Ht].
  destruct (loadTemplates_begin w) as [o w1] eqn:Hb.
  simpl in Ho, Ht; subst o; simpl.
  split; [reflexivity|].
  split; [reflexivity|].
  split; [exact Ht|].
  split; [reflexivity|].
  intros t Htok Hne.
  destruct (load_with_token w t Htok Hne) as (_ & Hq & Hi & _).
  rewrite Hb in Hq, Hi.
  split; assumption.
Qed.

Lemma delete_success_reloads_once_witness :
  requests (exec (deleteTemplate_settle (Returned (mkResponse 200 JNull))) deleting_world)
  = [ mkRequest DELETE "/performance/templates/7" "Bearer tok";
      mkRequest GET "/performance/templates" "Bearer tok" ]
  /\ inflight (exec (deleteTemplate_settle (Returned (mkResponse 200 JNull))) deleting_world)
     = [AwaitDelete "7"; AwaitList].
Proof.
  pose proof (delete_success_reloads_once deleting_world (mkResponse 200 JNull))
    as (_ & _ & _ & _ & H).
  refine (H "tok" eq_refl _); discriminate.
Defined.

(** C10 (as stated, refuted).  A confirmed delete without a token whose
    request succeeds: the same invocation goes on to call [loadTemplates],
    which stops at its token check, so the delete does end with the
    "Not authenticated" message and the router sent to [/login]. *)
Lemma delete_without_token_redirects_on_success :
  let w1 := exec (deleteTemplate_begin "7" true) (initial_world None) in
  let w2 := exec (deleteTemplate_settle (Returned (mkResponse 200 JNull))) w1 in
  requests w2 = [mkRequest DELETE "/performance/templates/7" "Bearer null"]
  /\ error (view w2) = JStr "Not authenticated. Please login again."
  /\ pushes w2 = ["/login"].
Proof.
  repeat split.
Qed.

(** C10 (amended).  A confirmed delete when the storage holds no token: the
    function does not look at the token before it sends.  The delete request
    leaves with the header [Bearer null], and up to there the error state is
    untouched and the router is not sent anywhere (where a load in the same
    state sends nothing and goes to [/login]); nor does any failure of that
    request send the router anywhere.  When the request succeeds, the reload
    that the delete starts stops at the token check of the load: no list
    request is sent, the error state becomes "Not authenticated. Please login
    again." and the router goes to [/login]. *)
Theorem delete_without_token (id : string) (w : World) :
  token w = None ->
  let r := deleteTemplate_begin id true w in
  fst r = Returned tt
  /\ requests (snd r)
     = (requests w ++ [mkRequest DELETE ("/performance/templates/" ++ id) "Bearer null"])%list
  /\ inflight (snd r) = (inflight w ++ [AwaitDelete id])%list
  /\ error (view (snd r)) = error (view w)
  /\ pushes (snd r) = pushes w
  /\ operationLoading (view (snd r)) = Some ("delete-" ++ id)
  /\ requests (exec loadTemplates_begin w) = requests w
  /\ (forall err, pushes (exec (deleteTemplate_settle (Threw err)) (snd r)) = pushes w)
  /\ (forall res,
      let w' := exec (deleteTemplate_settle (Returned res)) (snd r) in
      requests w' = requests (snd r)
      /\ error (view w') = JStr "Not authenticated. Please login again."
      /\ pushes w' = (pushes w ++ ["/login"])%list
      /\ templates (view w') = templates (view w)
      /\ operationLoading (view w') = None).
Proof.
  intros Ht.
  unfold deleteTemplate_begin, bind, getToken; simpl.
  rewrite Ht; simpl.
  repeat split.
  - unfold exec, loadTemplates_begin, bind, getToken, try_finally; simpl.
    rewrite Ht; reflexivity.
  - intros err; rewrite delete_failure_keeps_route; reflexivity.
Qed.

Lemma delete_without_token_witness :
  requests (exec (deleteTemplate_begin "7" true) (initial_world None))
  = [mkRequest DELETE "/performance/templates/7" "Bearer null"]
  /\ pushes (exec (deleteTemplate_begin "7" true) (initial_world None)) = []
  /\ pushes (exec (deleteTemplate_settle (Returned (mkResponse 200 JNull)))
                  (exec (deleteTemplate_begin "7" true) (initial_world None)))
     = ["/login"].
Proof.
  pose proof (delete_without_token "7" (initial_world None) eq_refl)
    as (_ & Hq & _ & _ & Hp & _ & _ & _ & Hs).
  split; [exact Hq|]. split; [exact Hp|].
  exact (proj1 (proj2 (proj2 (Hs (mkResponse 200 JNull))))).
Defined.

(** ** The server's port *)

(** C9.  Once the application is created, [bootstrap] calls [app.listen]
    once, with the port that [PORT] gives in the environment as
    [dotenv.config()] leaves it: the value of the variable when it is set
    (and not empty), the number 3001 when it is not set (or empty).  When the
    server is listening, the function logs the two readiness lines,
    "Backend running at http://localhost:<port>" and "Swagger running at
    http://localhost:<port>/api", right after the call of [listen] and as the
    last thing it does, and ends normally. *)
Theorem bootstrap_binds_port (dotenv_config : ProcessEnv -> ProcessEnv)
        (listen : Port -> Settled) (env0 : ProcessEnv) :
  let env := dotenv_config env0 in
  let run := bootstrap dotenv_config Resolved listen env0 in
  listens (snd run) = [PORT env]
  /\ (env "PORT" = None ->
      PORT env = PortNumber 3001 /\ port_text (PORT env) = "3001")
  /\ (forall s, env "PORT" = Some s -> s <> "" ->
      PORT env = PortString s /\ port_text (PORT env) = s)
  /\ (env "PORT" = Some "" -> PORT env = PortNumber 3001)
  /\ (listen (PORT env) = Resolved ->
      run
      = (Resolved,
         [ DotenvConfig;
           ConsoleLog "BACKEND DB URI =>" (env "MONGO_URI");
           NestCreate;
           UseJson "10mb";
           UseUrlencoded "10mb" true;
           EnableCors "http://localhost:3000" true
                      ["GET"; "POST"; "PATCH"; "PUT"; "DELETE"]
                      ["Content-Type"; "Authorization"];
           SwaggerSetup "api" "Employee Profile API"
             "API documentation for Employee Profile, Change Requests, Disputes, and Manager Views"
             "1.0";
           Listen (PORT env);
           ConsoleLog ("Backend running at http://localhost:"
                         ++ port_text (PORT env) ++ " 🚀") None;
           ConsoleLog ("Swagger running at http://localhost:"
                         ++ port_text (PORT env) ++ "/api 🟢") None ])).
Proof.
  intros env run; subst run; unfold bootstrap; fold env.
  split; [destruct (listen (PORT env)); reflexivity|].
  split; [intros H; unfold PORT; rewrite H; split; reflexivity|].
  split; [intros s H Hne; unfold PORT; rewrite H;
          apply String.eqb_neq in Hne; rewrite Hne; split; reflexivity|].
  split; [intros H; unfold PORT; rewrite H; reflexivity|].
  intros Hl; rewrite Hl; reflexivity.
Qed.

Lemma bootstrap_binds_port_witness :
  PORT env_empty = PortNumber 3001
  /\ PORT env_port_8080 = PortString "8080"
  /\ snd (bootstrap (fun e => e) Resolved (fun _ => Resolved) env_port_8080)
     = [ DotenvConfig;
         ConsoleLog "BACKEND DB URI =>" None;
         NestCreate;
         UseJson "10mb";
         UseUrlencoded "10mb" true;
         EnableCors "http://localhost:3000" true
                    ["GET"; "POST"; "PATCH"; "PUT"; "DELETE"]
                    ["Content-Type"; "Authorization"];
         SwaggerSetup "api" "Employee Profile API"
           "API documentation for Employee Profile, Change Requests, Disputes, and Manager Views"
           "1.0";
         Listen (PortString "8080");
         ConsoleLog "Backend running at http://localhost:8080 🚀" None;
         ConsoleLog "Swagger running at http://localhost:8080/api 🟢" None ].
Proof.
  pose proof (bootstrap_binds_port (fun e => e) (fun _ => Resolved) env_empty)
    as (_ & Hunset & _).
  pose proof (bootstrap_binds_port (fun e => e) (fun _ => Resolved) env_port_8080)
    as (_ & _ & Hset & _ & Hready).
  split; [exact (proj1 (Hunset eq_refl))|].
  split; [refine (proj1 (Hset "8080" eq_refl _)); discriminate|].
  exact (f_equal snd (Hready eq_refl)).
Defined.

(** ** The scenario of the specification

    The list request is answered with one inactive template under [data]. *)

Example scenario_manager :
  view (snd (settle (JStr "MANAGER") (fun _ => false) 0 (Returned inactive_only) sample_world))
  = mkView (JArr []) false (JStr "No active templates available. Please contact HR.") None.
Proof. reflexivity. Qed.

Example scenario_hr :
  view (snd (settle (JStr "HR") (fun _ => false) 0 (Returned inactive_only) sample_world))
  = mkView (JArr [JObj [("_id", JStr "1"); ("name", JStr "Q1 Review");
                        ("templateType", JStr "self"); ("isActive", JBool false)]])
           false JNull None.
Proof. reflexivity. Qed.

(** A manager's list with a [null] entry: the filter throws, and the load
    ends in its [catch]. *)
Example null_entry_fails_manager_load :
  view (snd (settle (JStr "MANAGER") (fun _ => false) 0
                    (Returned (mkResponse 200 (JArr [JNull]))) sample_world))
  = mkView (JArr []) false
           (JStr "Failed to load templates. Please check your connection.") None.
Proof. reflexivity. Qed.

(** The bootstrap of an environment that sets nothing. *)
Example bootstrap_default_run :
  bootstrap (fun e => e) Resolved (fun _ => Resolved) env_empty
  = (Resolved,
     [ DotenvConfig; ConsoleLog "BACKEND DB URI =>" None; NestCreate ]
       ++ configure
       ++ [ Listen (PortNumber 3001);
            ConsoleLog "Backend running at http://localhost:3001 🚀" None;
            ConsoleLog "Swagger running at http://localhost:3001/api 🟢" None ])%list.
Proof. reflexivity. Qed.

(** * Further properties of the page and of the bootstrap *)

(** ** Helper facts *)

Lemma strict_eq_str (v : JsVal) (s : string) :
  strict_eq v (JStr s) = true <-> v = JStr s.
Proof.
  destruct v; simpl; split; try discriminate; try congruence.
  - intros H; apply String.eqb_eq in H; congruence.
  - intros H; injection H as ->; apply String.eqb_refl.
Qed.

Lemma manager_is_not_hr (currentRole : JsVal) :
  isManager currentRole = true -> isHR currentRole = false.
Proof.
  unfold isManager, isHR; intros H.
  apply strict_eq_str in H; subst; reflexivity.
Qed.

Lemma nth_error_last {A : Type} (l : list A) (x : A) :
  nth_error (l ++ [x]) (List.length l) = Some x.
Proof. induction l as [|y l IH]; simpl; [reflexivity | exact IH]. Qed.

Lemma remove_nth_last {A : Type} (l : list A) (x : A) :
  remove_nth (List.length l) (l ++ [x]) = l.
Proof. induction l as [|y l IH]; simpl; [reflexivity | rewrite IH; reflexivity]. Qed.

Lemma remove_nth_keeps {A : Type} (l : list A) (i : nat) (x y : A) :
  nth_error l i = Some x -> In y l -> y <> x -> In y (remove_nth i l).
Proof.
  revert i; induction l as [|z l IH]; intros i Hn Hin Hne; [destruct Hin|].
  destruct i as [|i]; simpl in *.
  - injection Hn as ->. destruct Hin as [->|Hin]; [contradiction | exact Hin].
  - destruct Hin as [->|Hin]; [left; reflexivity | right; eapply IH; eauto].
Qed.

Lemma filter_throwing_null (xs : list JsVal) :
  existsb nullish xs = true ->
  filter_throwing isActive_not_false xs = Threw TypeError.
Proof.
  induction xs as [|x xs IH]; simpl; [discriminate|].
  unfold isActive_not_false at 1, get.
  destruct (nullish x); simpl; [reflexivity|].
  intros H; rewrite (IH H); reflexivity.
Qed.

Lemma js_or_truthy (a b : JsVal) : truthy b = true -> truthy (js_or a b) = true.
Proof. unfold js_or; destruct (truthy a) eqn:E; auto. Qed.

(** The world after the call of [loadTemplates], with and without a token. *)
Lemma load_begin_world_token (w : World) (t : string) :
  token w = Some t -> t <> "" ->
  loadTemplates_begin w
  = (Returned tt,
     mkWorld (mkView (templates (view w)) true JNull (operationLoading (view w)))
             (token w)
             (requests w ++ [mkRequest GET "/performance/templates" ("Bearer " ++ t)])
             (inflight w ++ [AwaitList])
             (pushes w) (console w)).
Proof.
  intros Ht Hne.
  unfold loadTemplates_begin, bind, getToken, try_finally; simpl.
  rewrite Ht; simpl.
  apply String.eqb_neq in Hne; rewrite Hne; reflexivity.
Qed.

Lemma load_begin_world_no_token (w : World) :
  truthy (token_val (token w)) = false ->
  loadTemplates_begin w
  = (Returned tt,
     mkWorld (mkView (templates (view w)) false
                     (JStr "Not authenticated. Please login again.")
                     (operationLoading (view w)))
             (token w) (requests w) (inflight w) (pushes w ++ ["/login"]) (console w)).
Proof.
  intros Ht.
  unfold loadTemplates_begin, bind, getToken, try_finally; simpl.
  rewrite Ht; reflexivity.
Qed.

Lemma truthy_token (tok : option string) :
  truthy (token_val tok) = true -> exists t, tok = Some t /\ t <> "".
Proof.
  destruct tok as [t|]; simpl; [|discriminate].
  intros H; exists t; split; [reflexivity|].
  intros ->; discriminate.
Qed.

(** A load whose entries are all objects (or anything but [null]) goes
    through for every role. *)
Lemma load_try_of_entries (currentRole : JsVal) (coerced : JsVal -> bool)
      (w : World) (res : Response) (xs : list JsVal) :
  normalize (data res) = JArr xs ->
  forallb (fun t => negb (nullish t)) xs = true ->
  fst (loadTemplates_try currentRole coerced (Returned res) w) = Returned tt.
Proof.
  intros Hn Hxs.
  destruct (isManager currentRole && negb (isHR currentRole)) eqn:Hr.
  - unfold loadTemplates_try, bind, await, lift, log, ret; simpl.
    rewrite Hn, Hr; simpl.
    rewrite (filter_throwing_total xs Hxs); simpl.
    unfold get; simpl.
    rewrite length_zero_eqb, length_pos_ltb.
    destruct (filter not_explicitly_inactive xs); destruct xs; reflexivity.
  - apply load_try_not_manager; exact Hr.
Qed.

(** What every end of [loadTemplates] leaves alone, and what it leaves. *)
Lemma load_settle_frame (currentRole : JsVal) (coerced : JsVal -> bool)
      (r : outcome Response) (w : World) :
  let w' := snd (loadTemplates_settle currentRole coerced r w) in
  inflight w' = inflight w
  /\ requests w' = requests w
  /\ token w' = token w
  /\ operationLoading (view w') = operationLoading (view w)
  /\ loading (view w') = false
  /\ (pushes w' = pushes w \/ pushes w' = (pushes w ++ ["/login"])%list)
  /\ nullish (templates (view w')) = false.
Proof.
  unfold loadTemplates_settle, try_finally, try_catch, loadTemplates_try.
  unfold loadTemplates_catch, bind, await, lift, log, ret.
  destruct r as [res|e]; simpl.
  - pose proof (normalize_never_nullish (data res)) as Hnn.
    destruct (isManager currentRole && negb (isHR currentRole)); simpl.
    + unfold js_filter.
      destruct (normalize (data res)) as [ | | b | n | s | xs | fs ]; simpl;
        try (destruct (strict_eq (status_of TypeError) (JNum 403)); simpl;
             repeat split; auto; fail).
      destruct (filter_throwing isActive_not_false xs) as [ys|e]; simpl.
      * unfold get; simpl.
        destruct (Z.of_nat (List.length ys) =? 0)%Z; simpl;
          [destruct (0 <? Z.of_nat (List.length xs))%Z; simpl|];
          repeat split; auto.
      * destruct (strict_eq (status_of e) (JNum 403)); simpl;
          [|destruct (strict_eq (status_of e) (JNum 401)); simpl];
          repeat split; auto.
    + unfold get; rewrite Hnn; simpl.
      destruct (strict_eq (prop (normalize (data res)) "length") (JNum 0)); simpl;
        [destruct (gt_zero coerced (prop (normalize (data res)) "length")); simpl|];
        repeat split; auto.
  - destruct (strict_eq (status_of e) (JNum 403)); simpl;
      [|destruct (strict_eq (status_of e) (JNum 401)); simpl];
      repeat split; auto.
Qed.

Lemma delete_settle_frame (r : outcome Response) (w : World) :
  let w' := snd (deleteTemplate_settle r w) in
  operationLoading (view w') = None
  /\ token w' = token w
  /\ templates (view w') = templates (view w)
  /\ ((loading (view w') = loading (view w) /\ inflight w' = inflight w
       /\ requests w' = requests w /\ pushes w' = pushes w)
      \/ (exists t, t <> ""
          /\ loading (view w') = true
          /\ inflight w' = (inflight w ++ [AwaitList])%list
          /\ requests w'
             = (requests w ++ [mkRequest GET "/performance/templates" ("Bearer " ++ t)])%list
          /\ pushes w' = pushes w)
      \/ (loading (view w') = false /\ inflight w' = inflight w
          /\ requests w' = requests w /\ pushes w' = (pushes w ++ ["/login"])%list)).
Proof.
  unfold deleteTemplate_settle, try_finally, try_catch.
  destruct r as [res|e].
  - rewrite deleteTemplate_try_resolved.
    destruct (truthy (token_val (token w))) eqn:Ht.
    + destruct (truthy_token _ Ht) as (t & Htok & Hne).
      rewrite (load_begin_world_token w t Htok Hne); simpl.
      repeat split; auto.
      right; left; exists t; repeat split; auto.
    + rewrite (load_begin_world_no_token w Ht); simpl.
      repeat split; auto.
      right; right; repeat split.
  - unfold deleteTemplate_try, deleteTemplate_catch, bind, await, lift, log; simpl.
    destruct (strict_eq (status_of e) (JNum 403)); simpl;
      [|destruct (strict_eq (status_of e) (JNum 400)); simpl];
      (repeat split; auto; left; repeat split).
Qed.

Lemma delete_begin_world (id : string) (w : World) :
  deleteTemplate_begin id true w
  = (Returned tt,
     mkWorld (mkView (templates (view w)) (loading (view w)) (error (view w))
                     (Some ("delete-" ++ id)))
             (token w)
             (requests w ++ [mkRequest DELETE ("/performance/templates/" ++ id)
                                       ("Bearer " ++ interpolate (token w))])
             (inflight w ++ [AwaitDelete id])
             (pushes w) (console w)).
Proof. reflexivity. Qed.

(** The invocation that was the last to start waiting gets its answer. *)
Lemma settle_last (currentRole : JsVal) (coerced : JsVal -> bool) (r : outcome Response)
      (v : View) (tok : option string) (rq : list Request) (fl : list Suspended)
      (s : Suspended) (ps cs : list string) :
  settle currentRole coerced (List.length fl) r (mkWorld v tok rq (fl ++ [s]) ps cs)
  = resume currentRole coerced s r (mkWorld v tok rq fl ps cs).
Proof.
  unfold settle; cbn [inflight view token requests pushes console].
  rewrite nth_error_last, remove_nth_last; reflexivity.
Qed.

Lemma delete_settle_success_world (rd : Response) (w : World) :
  deleteTemplate_settle (Returned rd) w
  = (Returned tt, exec (setOperationLoading None) (exec loadTemplates_begin w)).
Proof.
  unfold deleteTemplate_settle, try_finally, try_catch.
  rewrite deleteTemplate_try_resolved.
  unfold exec.
  destruct (load_begin_returns w) as [Ho _].
  destruct (loadTemplates_begin w) as [o w1]; simpl in Ho; subst o.
  reflexivity.
Qed.

(** ** Roles and controls *)

(** X1.  No role is both HR and Manager: the condition of the manager's
    filter, [isManager && !isHR], is [isManager]; the create button and the
    read-only banner are never shown together, and whoever has a delete
    control does not have the banner. *)
Theorem roles_exclusive (currentRole : JsVal) :
  isHR currentRole && isManager currentRole = false
  /\ isManager currentRole && negb (isHR currentRole) = isManager currentRole
  /\ shows_create_button currentRole && shows_read_only_banner currentRole = false
  /\ (shows_delete_button currentRole = true -> shows_read_only_banner currentRole = false).
Proof.
  unfold shows_create_button, shows_read_only_banner, shows_delete_button.
  destruct (isManager currentRole) eqn:Hm.
  - rewrite (manager_is_not_hr _ Hm); repeat split; discriminate.
  - rewrite andb_false_r; repeat split.
Qed.

Lemma roles_exclusive_witness :
  shows_read_only_banner (JStr "HR") = false.
Proof.
  exact (proj2 (proj2 (proj2 (roles_exclusive (JStr "HR")))) eq_refl).
Defined.

(** X2.  While the delete of [id] has just been started, the delete button of
    the row [id] is disabled and that of every other row is not; when the
    delete has settled, whatever the answer, no button is disabled. *)
Theorem delete_disables_its_row (id other : string) (r : outcome Response) (w : World) :
  let w1 := exec (deleteTemplate_begin id true) w in
  delete_disabled (view w1) id = true
  /\ (other <> id -> delete_disabled (view w1) other = false)
  /\ delete_disabled (view (exec (deleteTemplate_settle r) w1)) other = false.
Proof.
  unfold exec, deleteTemplate_begin, bind, getToken, delete_disabled; simpl.
  repeat split.
  - apply String.eqb_refl.
  - intros Hne. apply String.eqb_neq; congruence.
  - match goal with
    | |- context [deleteTemplate_settle r ?w1] =>
        destruct (delete_settle_frame r w1) as (Ho & _)
    end.
    rewrite Ho; reflexivity.
Qed.

Lemma delete_disables_its_row_witness :
  delete_disabled (view (exec (deleteTemplate_begin "7" true) sample_world)) "8" = false.
Proof.
  refine (proj1 (proj2 (delete_disables_its_row "7" "8" (Threw TypeError) sample_world)) _).
  discriminate.
Defined.

(** ** Normalization and the load *)

(** X3.  The normalization never gives [null] or [undefined], so the reads of
    [.length] that follow it cannot throw. *)
Theorem normalized_list_is_readable (body : JsVal) :
  nullish (normalize body) = false
  /\ get (normalize body) "length" = Returned (prop (normalize body) "length").
Proof.
  pose proof (normalize_never_nullish body) as H.
  split; [exact H|]. unfold get; rewrite H; reflexivity.
Qed.

(** X4.  A token that is the empty string counts as no token: the load sends
    nothing, sets the "Not authenticated" message, goes to [/login] and
    clears the loading indicator. *)
Theorem load_with_empty_token (w : World) :
  token w = Some "" ->
  let r := loadTemplates_begin w in
  fst r = Returned tt
  /\ requests (snd r) = requests w
  /\ inflight (snd r) = inflight w
  /\ error (view (snd r)) = JStr "Not authenticated. Please login again."
  /\ pushes (snd r) = (pushes w ++ ["/login"])%list
  /\ loading (view (snd r)) = false.
Proof.
  intros Ht.
  rewrite (load_begin_world_no_token w); [|rewrite Ht; reflexivity].
  repeat split.
Qed.

Lemma load_with_empty_token_witness :
  requests (snd (loadTemplates_begin (initial_world (Some "")))) = [].
Proof.
  exact (proj1 (proj2 (load_with_empty_token (initial_world (Some "")) eq_refl))).
Defined.

(** X5.  With a token, the call of [loadTemplates] sends exactly one list
    request, carrying the token, shows the loading indicator and clears the
    error left by an earlier operation; the displayed collection and the
    in-flight marker stay. *)
Theorem load_start_with_token (w : World) (t : string) :
  token w = Some t -> t <> "" ->
  let w' := exec loadTemplates_begin w in
  requests w' = (requests w ++ [mkRequest GET "/performance/templates" ("Bearer " ++ t)])%list
  /\ loading (view w') = true
  /\ error (view w') = JNull
  /\ templates (view w') = templates (view w)
  /\ operationLoading (view w') = operationLoading (view w)
  /\ pushes w' = pushes w.
Proof.
  intros Ht Hne; unfold exec.
  rewrite (load_begin_world_token w t Ht Hne); repeat split.
Qed.

Lemma load_start_with_token_witness :
  error (view (exec loadTemplates_begin
                    (mkWorld (mkView (JArr []) false (JStr "Failed to delete template") None)
                             (Some "tok") [] [] [] [])))
  = JNull.
Proof.
  refine (proj1 (proj2 (proj2 (load_start_with_token
            (mkWorld (mkView (JArr []) false (JStr "Failed to delete template") None)
                     (Some "tok") [] [] [] [])
            "tok" eq_refl _)))).
  discriminate.
Defined.

(** X6.  For a role that is not Manager the load does not filter and cannot
    fail once its request is resolved: the displayed value is the normalized
    body as it is (sequence or not), the "No active templates" message is
    never set, and the error is cleared exactly when the [length] of that
    value is [0]. *)
Theorem other_roles_load_unfiltered (currentRole : JsVal) (coerced : JsVal -> bool)
        (w : World) (res : Response) :
  isManager currentRole = false ->
  let r := loadTemplates_settle currentRole coerced (Returned res) w in
  fst (loadTemplates_try currentRole coerced (Returned res) w) = Returned tt
  /\ fst r = Returned tt
  /\ templates (view (snd r)) = normalize (data res)
  /\ error (view (snd r))
     = (if strict_eq (prop (normalize (data res)) "length") (JNum 0)
        then JNull else error (view w))
  /\ loading (view (snd r)) = false
  /\ pushes (snd r) = pushes w.
Proof.
  intros Hm.
  assert (Hr : isManager currentRole && negb (isHR currentRole) = false)
    by (rewrite Hm; reflexivity).
  split; [apply load_try_not_manager; exact Hr|].
  unfold loadTemplates_settle, try_finally, try_catch, loadTemplates_try.
  unfold bind, await, lift, log, ret; simpl.
  rewrite Hr; simpl.
  pose proof (normalize_never_nullish (data res)) as Hnn.
  unfold get; rewrite Hnn; simpl.
  destruct (strict_eq (prop (normalize (data res)) "length") (JNum 0)) eqn:E; simpl.
  - apply strict_eq_num in E; rewrite E; simpl.
    repeat split.
  - repeat split.
Qed.

Lemma other_roles_load_unfiltered_witness :
  templates (view (snd (loadTemplates_settle (JStr "HR") (fun _ => false)
                          (Returned (mkResponse 200 (JObj [("items", JStr "none")])))
                          sample_world)))
  = JStr "none".
Proof.
  exact (proj1 (proj2 (proj2 (other_roles_load_unfiltered (JStr "HR") (fun _ => false)
           sample_world (mkResponse 200 (JObj [("items", JStr "none")])) eq_refl)))).
Defined.

(** X7.  For a Manager, a resolved body that does not normalize to a sequence,
    or whose sequence has a [null] entry, makes the filter throw: the load
    ends in its [catch], with the connectivity message, an empty collection,
    the loading indicator cleared and no redirect. *)
Theorem manager_load_of_bad_list (currentRole : JsVal) (coerced : JsVal -> bool)
        (w : World) (res : Response) :
  isManager currentRole = true ->
  isArray (normalize (data res)) = false
  \/ (exists xs, normalize (data res) = JArr xs /\ existsb nullish xs = true) ->
  let r := loadTemplates_settle currentRole coerced (Returned res) w in
  fst r = Returned tt
  /\ templates (view (snd r)) = JArr []
  /\ error (view (snd r)) = JStr "Failed to load templates. Please check your connection."
  /\ loading (view (snd r)) = false
  /\ pushes (snd r) = pushes w.
Proof.
  intros Hm Hbad.
  unfold loadTemplates_settle, try_finally, try_catch, loadTemplates_try.
  unfold loadTemplates_catch, bind, await, lift, log, ret; simpl.
  rewrite Hm, (manager_is_not_hr _ Hm); simpl.
  destruct Hbad as [Hna | (xs & Hn & Hex)].
  - unfold js_filter.
    destruct (normalize (data res)); simpl in *; try discriminate; repeat split.
  - rewrite Hn; simpl.
    rewrite (filter_throwing_null xs Hex); simpl.
    repeat split.
Qed.

Lemma manager_load_of_bad_list_witness :
  error (view (snd (loadTemplates_settle (JStr "MANAGER") (fun _ => false)
                      (Returned (mkResponse 200 (JArr [JObj []; JNull])))
                      sample_world)))
  = JStr "Failed to load templates. Please check your connection.".
Proof.
  refine (proj1 (proj2 (proj2 (manager_load_of_bad_list (JStr "MANAGER") (fun _ => false)
            sample_world (mkResponse 200 (JArr [JObj []; JNull])) eq_refl _)))).
  right; exists [JObj []; JNull]; split; reflexivity.
Defined.

(** ** The panels of the render *)

(** X8.  In every state of the view, the "No Templates Found" panel excludes
    the table, the error panel and the loading indicator; and the table
    excludes the loading indicator. *)
Theorem panels_exclusive (coerced : JsVal -> bool) (v : View) :
  (shows_no_templates_found v = Returned true ->
   shows_table coerced v = Returned false
   /\ shows_error v = false
   /\ loading v = false)
  /\ (shows_table coerced v = Returned true -> loading v = false).
Proof.
  unfold shows_no_templates_found, shows_table, shows_error.
  destruct (loading v); simpl; [split; discriminate|].
  split; [|reflexivity].
  destruct (truthy (error v)); simpl; [discriminate|].
  destruct (get (templates v) "length") as [n|e]; [|discriminate].
  intros H; injection H as H.
  apply strict_eq_num in H; subst n.
  repeat split.
Qed.

Lemma panels_exclusive_witness :
  shows_table (fun _ => true) (mkView (JArr []) false JNull None) = Returned false.
Proof.
  exact (proj1 (proj1 (panels_exclusive (fun _ => true) (mkView (JArr []) false JNull None))
                      eq_refl)).
Defined.

(** X9.  After a load has failed, whatever the failure: the error state is
    truthy, so the condition of the error panel holds; the displayed
    collection is empty and the loading indicator off, so neither the table
    nor the "No Templates Found" panel is rendered.  The error state is a
    string that is not empty whenever the status is 403 or 401, or the
    server's message is a string or is not truthy. *)
Theorem failed_load_error_state (currentRole : JsVal) (coerced : JsVal -> bool)
        (w : World) (err : Exn) :
  let v := view (snd (loadTemplates_settle currentRole coerced (Threw err) w)) in
  truthy (error v) = true
  /\ templates v = JArr []
  /\ loading v = false
  /\ shows_table coerced v = Returned false
  /\ shows_no_templates_found v = Returned false
  /\ (status_of err = JNum 403 \/ status_of err = JNum 401
      \/ truthy (message_of err) = false \/ (exists m, message_of err = JStr m) ->
      exists m, error v = JStr m /\ m <> "").
Proof.
  unfold loadTemplates_settle, try_finally, try_catch, loadTemplates_try.
  unfold loadTemplates_catch, bind, await, lift, log; simpl.
  unfold shows_table, shows_no_templates_found.
  destruct (strict_eq (status_of err) (JNum 403)) eqn:E3; simpl;
    [|destruct (strict_eq (status_of err) (JNum 401)) eqn:E1; simpl].
  - repeat split; intros _; eexists; split; [reflexivity | discriminate].
  - repeat split; intros _; eexists; split; [reflexivity | discriminate].
  - rewrite js_or_truthy by reflexivity.
    repeat split.
    intros [H | [H | [H | (m & H)]]].
    + apply strict_eq_num in H; congruence.
    + apply strict_eq_num in H; congruence.
    + unfold js_or; rewrite H; eexists; split; [reflexivity | discriminate].
    + unfold js_or; rewrite H; simpl.
      destruct (String.eqb m "") eqn:Em; simpl.
      * eexists; split; [reflexivity | discriminate].
      * exists m; split; [reflexivity | apply String.eqb_neq; exact Em].
Qed.

Lemma failed_load_error_state_witness :
  exists m,
    error (view (snd (loadTemplates_settle (JStr "HR") (fun _ => false)
                        (Threw (AxiosError (Some (mkResponse 500
                                  (JObj [("message", JStr "Database is down")])))))
                        sample_world)))
    = JStr m /\ m <> "".
Proof.
  refine (proj2 (proj2 (proj2 (proj2 (proj2
           (failed_load_error_state (JStr "HR") (fun _ => false) sample_world
              (AxiosError (Some (mkResponse 500
                 (JObj [("message", JStr "Database is down")])))))))))
           _).
  right; right; right; exists "Database is down"; reflexivity.
Defined.

(** X10.  A whole load with a token, whose request is answered with a
    sequence [xs] without [null] entries before anything else happens: the
    request is the only one sent, no invocation is left waiting, the loading
    indicator is off, the displayed collection is the role's projection of
    [xs], and the error state is "No active templates available. Please
    contact HR." when [xs] is not empty and its projection is, and [null]
    otherwise.  So exactly one of the three conditions of the render holds:
    that of the table when the projection is not empty, that of the "No
    Templates Found" panel when [xs] is empty, that of the error panel when
    [xs] is not empty and its projection is. *)
Theorem load_round_trip_state (currentRole : JsVal) (coerced : JsVal -> bool)
        (w : World) (t : string) (res : Response) (xs : list JsVal) :
  token w = Some t -> t <> "" ->
  normalize (data res) = JArr xs ->
  forallb (fun x => negb (nullish x)) xs = true ->
  let w' := load_and_answer currentRole coerced (Returned res) w in
  requests w' = (requests w ++ [mkRequest GET "/performance/templates" ("Bearer " ++ t)])%list
  /\ inflight w' = inflight w
  /\ loading (view w') = false
  /\ templates (view w') = JArr (role_filtered currentRole xs)
  /\ error (view w')
     = (if is_nil (role_filtered currentRole xs) && negb (is_nil xs)
        then JStr "No active templates available. Please contact HR."
        else JNull)
  /\ shows_table coerced (view w') = Returned (negb (is_nil (role_filtered currentRole xs)))
  /\ shows_no_templates_found (view w') = Returned (is_nil xs)
  /\ truthy (error (view w')) = is_nil (role_filtered currentRole xs) && negb (is_nil xs).
Proof.
  intros Ht Hne Hn Hxs.
  unfold load_and_answer, exec, settle.
  rewrite (load_begin_world_token w t Ht Hne); simpl.
  rewrite nth_error_last, remove_nth_last; simpl.
  match goal with
  | |- context [loadTemplates_settle _ _ _ ?w1] =>
      pose proof (load_resolved_view currentRole coerced w1 res xs Hn
                    (load_try_of_entries currentRole coerced w1 res xs Hn Hxs))
        as (_ & Htm & Hl & He & _ & _ & Hq);
      destruct (load_settle_frame currentRole coerced (Returned res) w1) as (Hi & _)
  end.
  simpl in Hq, Hi, He.
  split; [exact Hq|]. split; [exact Hi|]. split; [exact Hl|]. split; [exact Htm|].
  unfold shows_table, shows_no_templates_found.
  rewrite Hl, He, Htm; simpl.
  assert (Hsub : xs = [] -> role_filtered currentRole xs = []).
  { intros ->; unfold role_filtered.
    destruct (isManager currentRole && negb (isHR currentRole)); reflexivity. }
  destruct (role_filtered currentRole xs) as [|y ys] eqn:Hf; destruct xs as [|x xs'];
    simpl; try (repeat split; fail).
  specialize (Hsub eq_refl); discriminate.
Qed.

Lemma load_round_trip_state_witness :
  templates (view (load_and_answer (JStr "MANAGER") (fun _ => false) (Returned sample_response)
                                   (initial_world (Some "tok"))))
  = JArr [ JObj [("_id", JStr "2"); ("name", JStr "Q2 Review")];
           JObj [("_id", JStr "3"); ("name", JStr "Q3 Review"); ("isActive", JBool true)] ].
Proof.
  refine (proj1 (proj2 (proj2 (proj2
           (load_round_trip_state (JStr "MANAGER") (fun _ => false)
              (initial_world (Some "tok")) "tok" sample_response sample_list
              eq_refl _ eq_refl eq_refl))))).
  discriminate.
Defined.

(** ** Deleting, from the click to the reloaded list *)

(** X11.  A confirmed delete with a token, answered with success, and then
    the reload it started, answered with a sequence [xs] without [null]
    entries: two requests were sent, the delete and then the list request;
    nothing is left waiting; the in-flight marker and the loading indicator
    are off; and the displayed collection is the role's projection of
    [xs]. *)
Theorem delete_then_reload (currentRole : JsVal) (coerced : JsVal -> bool)
        (id t : string) (rd rl : Response) (xs : list JsVal) (w : World) :
  token w = Some t -> t <> "" ->
  normalize (data rl) = JArr xs ->
  forallb (fun x => negb (nullish x)) xs = true ->
  let w' := delete_and_reload currentRole coerced id (Returned rd) (Returned rl) w in
  requests w'
  = (requests w ++ [ mkRequest DELETE ("/performance/templates/" ++ id) ("Bearer " ++ t);
                     mkRequest GET "/performance/templates" ("Bearer " ++ t) ])%list
  /\ inflight w' = inflight w
  /\ operationLoading (view w') = None
  /\ loading (view w') = false
  /\ templates (view w') = JArr (role_filtered currentRole xs).
Proof.
  intros Ht Hne Hn Hxs w'.
  destruct w as [v tok rq fl ps cs]; cbn [token] in Ht; subst tok.
  set (W := mkWorld (mkView (templates v) true JNull None) (Some t)
              ((rq ++ [mkRequest DELETE ("/performance/templates/" ++ id) ("Bearer " ++ t)])
                 ++ [mkRequest GET "/performance/templates" ("Bearer " ++ t)])
              fl ps cs).
  assert (Hw : w' = snd (loadTemplates_settle currentRole coerced (Returned rl) W)).
  { subst w' W; unfold delete_and_reload, exec.
    rewrite delete_begin_world.
    cbn [snd view token requests inflight pushes console
         templates loading error operationLoading interpolate].
    rewrite settle_last; cbn [resume].
    rewrite delete_settle_success_world; unfold exec.
    rewrite (load_begin_world_token _ t) by (cbn [token]; auto).
    unfold setOperationLoading, with_view;
      cbn [snd view token requests inflight pushes console
           templates loading error operationLoading].
    rewrite settle_last; reflexivity. }
  rewrite Hw.
  pose proof (load_resolved_view currentRole coerced W rl xs Hn
                (load_try_of_entries currentRole coerced W rl xs Hn Hxs))
    as (_ & Htm & Hl & _ & Ho & _ & Hq).
  destruct (load_settle_frame currentRole coerced (Returned rl) W) as (Hi & _).
  split; [rewrite Hq; subst W; cbn [requests]; rewrite <- app_assoc; reflexivity|].
  split; [exact Hi|]. split; [exact Ho|]. split; [exact Hl | exact Htm].
Qed.

Lemma delete_then_reload_witness :
  templates (view (delete_and_reload (JStr "HR") (fun _ => false) "1"
                     (Returned (mkResponse 200 JNull))
                     (Returned (mkResponse 200 (JArr [JObj [("_id", JStr "2")]])))
                     (mkWorld (mkView (JArr [JObj [("_id", JStr "1")]; JObj [("_id", JStr "2")]])
                                      false JNull None)
                              (Some "tok") [] [] [] [])))
  = JArr [JObj [("_id", JStr "2")]].
Proof.
  refine (proj2 (proj2 (proj2 (proj2
           (delete_then_reload (JStr "HR") (fun _ => false) "1" "tok"
              (mkResponse 200 JNull) (mkResponse 200 (JArr [JObj [("_id", JStr "2")]]))
              [JObj [("_id", JStr "2")]]
              (mkWorld (mkView (JArr [JObj [("_id", JStr "1")]; JObj [("_id", JStr "2")]])
                               false JNull None)
                       (Some "tok") [] [] [] [])
              eq_refl _ eq_refl eq_refl))))).
  discriminate.
Defined.

(** X12.  A confirmed delete without a token whose request nevertheless
    succeeds: the reload it starts stops at the token check.  Only the delete
    request was sent; the page shows "Not authenticated. Please login again.",
    goes to [/login], and keeps the collection it displayed. *)
Theorem delete_success_without_token (currentRole : JsVal) (coerced : JsVal -> bool)
        (id : string) (rd : Response) (w : World) :
  token w = None ->
  let w' := snd (settle currentRole coerced (List.length (inflight w)) (Returned rd)
                        (exec (deleteTemplate_begin id true) w)) in
  requests w'
  = (requests w ++ [mkRequest DELETE ("/performance/templates/" ++ id) "Bearer null"])%list
  /\ inflight w' = inflight w
  /\ error (view w') = JStr "Not authenticated. Please login again."
  /\ pushes w' = (pushes w ++ ["/login"])%list
  /\ templates (view w') = templates (view w)
  /\ operationLoading (view w') = None
  /\ loading (view w') = false.
Proof.
  intros Ht.
  unfold exec.
  rewrite delete_begin_world; cbn [snd].
  rewrite settle_last; cbn [resume].
  rewrite delete_settle_success_world; cbn [snd].
  unfold exec at 2.
  rewrite load_begin_world_no_token by (cbn [token]; rewrite Ht; reflexivity).
  unfold exec, setOperationLoading, with_view;
    cbn [snd view token requests inflight pushes console
         templates loading error operationLoading].
  rewrite Ht; cbn [interpolate].
  repeat split.
Qed.

Lemma delete_success_without_token_witness :
  pushes (snd (settle (JStr "HR") (fun _ => false) 0 (Returned (mkResponse 200 JNull))
                      (exec (deleteTemplate_begin "7" true) (initial_world None))))
  = ["/login"].
Proof.
  exact (proj1 (proj2 (proj2 (proj2
           (delete_success_without_token (JStr "HR") (fun _ => false) "7"
              (mkResponse 200 JNull) (initial_world None) eq_refl))))).
Defined.

(** ** What holds in every state of the page *)

Lemma sound_load_begin (w : World) :
  page_sound w -> page_sound (exec loadTemplates_begin w) /\ spinner_sound (exec loadTemplates_begin w).
Proof.
  intros (Hm & Hq & Hp & Ht).
  unfold exec.
  destruct (truthy (token_val (token w))) eqn:Htok.
  - destruct (truthy_token _ Htok) as (t & Hsome & Hne).
    rewrite (load_begin_world_token w t Hsome Hne).
    unfold page_sound, spinner_sound;
      cbn [snd view token requests inflight pushes console
           templates loading error operationLoading].
    repeat split; auto.
    + intros m Hmm. destruct (Hm m Hmm) as (id & -> & Hin).
      exists id; split; [reflexivity | apply in_or_app; left; exact Hin].
    + apply Forall_app; split; [exact Hq|].
      constructor; [|constructor].
      unfold page_request; cbn [method url authorization].
      split; [reflexivity | exists t; split; [exact Hne | reflexivity]].
    + intros _; apply in_or_app; right; left; reflexivity.
  - rewrite (load_begin_world_no_token w Htok).
    unfold page_sound, spinner_sound;
      cbn [snd view token requests inflight pushes console
           templates loading error operationLoading].
    repeat split; auto.
    + apply Forall_app; split; [exact Hp|].
      constructor; [left; reflexivity | constructor].
    + discriminate.
Qed.

Lemma sound_push_dashboard (w : World) :
  page_sound w -> page_sound (exec (push "/dashboard") w).
Proof.
  intros (Hm & Hq & Hp & Ht).
  unfold exec, push, page_sound;
    cbn [snd view token requests inflight pushes console
         templates loading error operationLoading].
  repeat split; auto.
  apply Forall_app; split; [exact Hp|].
  constructor; [right; reflexivity | constructor].
Qed.

Lemma sound_delete_begin (id : string) (accepted : bool) (w : World) :
  page_sound w -> spinner_sound w ->
  page_sound (exec (deleteTemplate_begin id accepted) w)
  /\ spinner_sound (exec (deleteTemplate_begin id accepted) w).
Proof.
  intros (Hm & Hq & Hp & Ht) Hs.
  destruct accepted; [|split; [repeat split; auto | exact Hs]].
  unfold exec; rewrite delete_begin_world.
  unfold page_sound, spinner_sound;
    cbn [snd view token requests inflight pushes console
         templates loading error operationLoading].
  repeat split; auto.
  - intros m Hmm; injection Hmm as <-.
    exists id; split; [reflexivity | apply in_or_app; right; left; reflexivity].
  - apply Forall_app; split; [exact Hq|].
    constructor; [|constructor].
    unfold page_request; cbn [method url authorization].
    exists id, (token w); split; reflexivity.
  - intros Hl; apply in_or_app; left; exact (Hs Hl).
Qed.

Lemma sound_settle (currentRole : JsVal) (coerced : JsVal -> bool)
      (i : nat) (r : outcome Response) (w : World) :
  page_sound w -> spinner_sound w ->
  page_sound (exec (settle currentRole coerced i r) w)
  /\ spinner_sound (exec (settle currentRole coerced i r) w).
Proof.
  intros (Hm & Hq & Hp & Ht) Hs.
  unfold exec, settle.
  destruct (nth_error (inflight w) i) as [s|] eqn:Hn;
    [|split; [repeat split; auto | exact Hs]].
  set (w0 := mkWorld (view w) (token w) (requests w) (remove_nth i (inflight w))
                     (pushes w) (console w)).
  destruct s as [|id]; cbn [resume].
  - destruct (load_settle_frame currentRole coerced r w0)
      as (Hi & Hr & _ & Ho & Hl & Hpu & Hnn).
    cbn [view token requests inflight pushes console] in Hi, Hr, Ho, Hpu.
    unfold page_sound, spinner_sound.
    rewrite Hi, Hr, Ho, Hl, Hnn.
    repeat split; auto.
    + intros m Hmm. destruct (Hm m Hmm) as (id & -> & Hin).
      exists id; split; [reflexivity|].
      apply (remove_nth_keeps _ _ AwaitList); [exact Hn | exact Hin | discriminate].
    + destruct Hpu as [-> | ->]; [exact Hp|].
      apply Forall_app; split; [exact Hp|].
      constructor; [left; reflexivity | constructor].
    + discriminate.
  - destruct (delete_settle_frame r w0) as (Ho & _ & Htm & Hcases).
    cbn [view token requests inflight pushes console] in Htm, Hcases.
    unfold page_sound, spinner_sound.
    rewrite Ho, Htm.
    assert (Hkeep : loading (view w) = true -> In AwaitList (remove_nth i (inflight w))).
    { intros Hl.
      apply (remove_nth_keeps _ _ (AwaitDelete id)); [exact Hn | exact (Hs Hl) | discriminate]. }
    destruct Hcases as [(Hl & Hi & Hr & Hpu)
                       | [(t & Hne & Hl & Hi & Hr & Hpu) | (Hl & Hi & Hr & Hpu)]];
      rewrite Hl, Hi, Hr, Hpu.
    + repeat split; auto; discriminate.
    + repeat split; auto; try discriminate.
      * apply Forall_app; split; [exact Hq|].
        constructor; [|constructor].
        unfold page_request; cbn [method url authorization].
        split; [reflexivity | exists t; split; [exact Hne | reflexivity]].
      * intros _; apply in_or_app; right; left; reflexivity.
    + repeat split; auto; try discriminate.
      apply Forall_app; split; [exact Hp|].
      constructor; [left; reflexivity | constructor].
Qed.

Lemma sound_guard (currentRole : JsVal) (w : World) :
  page_sound w -> page_sound (exec (guard currentRole) w).
Proof.
  intros H; unfold guard.
  destruct (negb (isHR currentRole) && negb (isManager currentRole));
    [apply sound_push_dashboard; exact H | exact H].
Qed.

Lemma exec_bind (A B : Type) (m : M A) (k : A -> M B) (w : World) (a : A) :
  fst (m w) = Returned a -> exec (bind m k) w = exec (k a) (exec m w).
Proof.
  unfold exec, bind; destruct (m w) as [o w1]; simpl; intros ->; reflexivity.
Qed.

Lemma guard_returns (currentRole : JsVal) (w : World) :
  fst (guard currentRole w) = Returned tt.
Proof.
  unfold guard; destruct (negb (isHR currentRole) && negb (isManager currentRole));
    reflexivity.
Qed.

Lemma mount_unfolded (currentRole : JsVal) (isReady : bool) (w : World) :
  exec (mount currentRole isReady) w
  = let w1 := exec loadTemplates_begin (exec (guard currentRole) w) in
    if isReady then exec loadTemplates_begin w1 else w1.
Proof.
  unfold mount.
  rewrite (exec_bind _ _ _ _ _ tt (guard_returns currentRole w)).
  rewrite (exec_bind _ _ _ _ _ tt (proj1 (load_begin_returns _))).
  destruct isReady; reflexivity.
Qed.

Lemma reachable_sound (currentRole : JsVal) (coerced : JsVal -> bool) (w : World) :
  reachable currentRole coerced w -> page_sound w /\ spinner_sound w.
Proof.
  induction 1 as [tok isReady | w a Hr [IH IHs]].
  - rewrite mount_unfolded; cbv zeta.
    assert (H0 : page_sound (initial_world tok)).
    { unfold page_sound, initial_world, initial_view; simpl.
      repeat split; try constructor; discriminate. }
    apply (sound_guard currentRole) in H0.
    apply sound_load_begin in H0 as [H1 H1s].
    destruct isReady; [apply sound_load_begin; exact H1 | split; assumption].
  - destruct a as [ | | id accepted | i r | tok | ]; cbn [step].
    + apply sound_load_begin; exact IH.
    + split; [apply sound_push_dashboard; exact IH | exact IHs].
    + apply sound_delete_begin; assumption.
    + apply sound_settle; assumption.
    + split; [|exact IHs].
      destruct IH as (Hm & Hq & Hp & Ht); repeat split; auto.
    + split; [apply sound_guard; exact IH|].
      unfold spinner_sound, exec, guard in *.
      destruct (negb (isHR currentRole) && negb (isManager currentRole)); exact IHs.
Qed.

(** X13.  In every state of the page, the loading indicator is on only while
    a list request is outstanding: once nothing is waiting for an answer, the
    indicator is off. *)
Theorem spinner_only_while_loading (currentRole : JsVal) (coerced : JsVal -> bool)
        (w : World) :
  reachable currentRole coerced w ->
  (loading (view w) = true -> In AwaitList (inflight w))
  /\ (inflight w = [] -> loading (view w) = false).
Proof.
  intros Hr; destruct (reachable_sound _ _ _ Hr) as [_ Hs].
  split; [exact Hs|].
  intros Hnil; destruct (loading (view w)) eqn:Hl; [|reflexivity].
  specialize (Hs Hl); rewrite Hnil in Hs; destruct Hs.
Qed.

Lemma spinner_only_while_loading_witness :
  In AwaitList (inflight (exec (mount (JStr "HR") false) (initial_world (Some "tok")))).
Proof.
  exact (proj1 (spinner_only_while_loading (JStr "HR") (fun _ => false) _
                  (reach_mount (JStr "HR") (fun _ => false) (Some "tok") false))
               eq_refl).
Defined.

(** X14.  In every state of the page, an in-flight marker names a delete that
    is outstanding: it is [delete-] followed by the identifier of a delete
    request still waiting for its answer.  So when no delete is outstanding,
    no delete button is disabled. *)
Theorem marker_names_outstanding_delete (currentRole : JsVal) (coerced : JsVal -> bool)
        (w : World) :
  reachable currentRole coerced w ->
  (forall m, operationLoading (view w) = Some m ->
             exists id, m = "delete-" ++ id /\ In (AwaitDelete id) (inflight w))
  /\ ((forall id, ~ In (AwaitDelete id) (inflight w)) ->
      forall id, delete_disabled (view w) id = false).
Proof.
  intros Hr; destruct (reachable_sound _ _ _ Hr) as [(Hm & _) _].
  split; [exact Hm|].
  intros Hnone id; unfold delete_disabled.
  destruct (operationLoading (view w)) as [m|] eqn:Ho; [|reflexivity].
  destruct (Hm m eq_refl) as (id' & _ & Hin).
  destruct (Hnone id' Hin).
Qed.

Lemma marker_names_outstanding_delete_witness :
  exists id, "delete-7" = "delete-" ++ id
             /\ In (AwaitDelete id)
                   (inflight (exec (step (JStr "HR") (fun _ => false) (ClickDelete "7" true))
                                   (exec (mount (JStr "HR") false) (initial_world (Some "tok"))))).
Proof.
  exact (proj1 (marker_names_outstanding_delete (JStr "HR") (fun _ => false) _
                  (reach_step (JStr "HR") (fun _ => false) _ (ClickDelete "7" true)
                     (reach_mount (JStr "HR") (fun _ => false) (Some "tok") false)))
               "delete-7" eq_refl).
Defined.

(** X15.  Every request the page ever sends is a list request to
    [/performance/templates] carrying a token that is not empty, or a delete
    request to [/performance/templates/<id>]: the list request is never sent
    without a token, and no other address is ever called. *)
Theorem requests_are_page_requests (currentRole : JsVal) (coerced : JsVal -> bool)
        (w : World) :
  reachable currentRole coerced w ->
  Forall page_request (requests w)
  /\ (forall q, In q (requests w) -> method q = GET ->
                url q = "/performance/templates" /\ authorization q <> "Bearer ").
Proof.
  intros Hr; destruct (reachable_sound _ _ _ Hr) as [(_ & Hq & _) _].
  split; [exact Hq|].
  intros q Hin Hget.
  rewrite Forall_forall in Hq; specialize (Hq q Hin).
  unfold page_request in Hq; rewrite Hget in Hq.
  destruct Hq as (Hu & t & Hne & Ha).
  split; [exact Hu|].
  rewrite Ha; intros Heq.
  apply Hne.
  injection Heq as Heq; exact Heq.
Qed.

Lemma requests_are_page_requests_witness :
  Forall page_request
         (requests (exec (step (JStr "HR") (fun _ => false) (ClickDelete "7" true))
                         (exec (mount (JStr "HR") true) (initial_world (Some "tok"))))).
Proof.
  exact (proj1 (requests_are_page_requests (JStr "HR") (fun _ => false) _
                  (reach_step (JStr "HR") (fun _ => false) _ (ClickDelete "7" true)
                     (reach_mount (JStr "HR") (fun _ => false) (Some "tok") true)))).
Defined.

(** X17.  In every state of the page the displayed collection is neither
    [null] nor [undefined], so the render's reads of [templates.length]
    never throw: whether the table and the "No Templates Found" panel are
    shown is always decided. *)
Theorem render_conditions_decided (currentRole : JsVal) (coerced : JsVal -> bool)
        (w : World) :
  reachable currentRole coerced w ->
  nullish (templates (view w)) = false
  /\ (exists b, shows_table coerced (view w) = Returned b)
  /\ (exists b, shows_no_templates_found (view w) = Returned b).
Proof.
  intros Hr; destruct (reachable_sound _ _ _ Hr) as [(_ & _ & _ & Hn) _].
  split; [exact Hn|].
  unfold shows_table, shows_no_templates_found, get; rewrite Hn.
  split.
  - destruct (negb (loading (view w))); eexists; reflexivity.
  - destruct (negb (loading (view w)) && negb (truthy (error (view w))));
      eexists; reflexivity.
Qed.

Lemma render_conditions_decided_witness :
  nullish (templates (view (exec (mount (JStr "HR") true) (initial_world None)))) = false.
Proof.
  exact (proj1 (render_conditions_decided (JStr "HR") (fun _ => false) _
                  (reach_mount (JStr "HR") (fun _ => false) None true))).
Defined.

(** ** The mount *)

(** X18.  At the mount, with a token: the list is requested whatever the
    role (a role that is neither HR nor Manager is sent to [/dashboard], and
    the request leaves all the same), and it is requested twice when the
    router is already ready. *)
Theorem mount_requests (currentRole : JsVal) (isReady : bool) (t : string) :
  t <> "" ->
  let w' := exec (mount currentRole isReady) (initial_world (Some t)) in
  let q := mkRequest GET "/performance/templates" ("Bearer " ++ t) in
  requests w' = (if isReady then [q; q] else [q])
  /\ inflight w' = (if isReady then [AwaitList; AwaitList] else [AwaitList])
  /\ pushes w' = (if isHR currentRole || isManager currentRole then [] else ["/dashboard"])
  /\ loading (view w') = true.
Proof.
  intros Hne w' q; subst w'.
  rewrite mount_unfolded; cbv zeta.
  assert (Hg : exec (guard currentRole) (initial_world (Some t))
               = mkWorld initial_view (Some t) [] []
                   (if isHR currentRole || isManager currentRole then [] else ["/dashboard"])
                   []).
  { unfold guard; destruct (isHR currentRole); destruct (isManager currentRole);
      reflexivity. }
  rewrite Hg; unfold exec.
  match goal with
  | |- context [loadTemplates_begin (mkWorld ?a ?b ?c ?d ?e ?f)] =>
      rewrite (load_begin_world_token (mkWorld a b c d e f) t eq_refl Hne)
  end.
  destruct isReady; cbn [snd].
  - match goal with
    | |- context [loadTemplates_begin (mkWorld ?a ?b ?c ?d ?e ?f)] =>
        rewrite (load_begin_world_token (mkWorld a b c d e f) t eq_refl Hne)
    end.
    repeat split.
  - repeat split.
Qed.

Lemma mount_requests_witness :
  pushes (exec (mount (JStr "EMPLOYEE") true) (initial_world (Some "tok"))) = ["/dashboard"]
  /\ List.length (requests (exec (mount (JStr "EMPLOYEE") true) (initial_world (Some "tok"))))
     = 2%nat.
Proof.
  assert (Hne : "tok" <> "") by discriminate.
  pose proof (mount_requests (JStr "EMPLOYEE") true "tok" Hne) as (Hq & _ & Hp & _).
  split; [exact Hp | rewrite Hq; reflexivity].
Defined.

(** ** The bootstrap's outcome *)

(** X19.  [bootstrap] ends normally exactly when the application was created
    and the server is listening.  When the creation fails, nothing is
    configured and [listen] is never called; when [listen] fails, its call is
    the last thing the function did.  Whenever [bootstrap] fails, the only
    line it has logged is the one of the database address: no readiness line
    is logged.  The port named in the readiness lines is never empty. *)
Theorem bootstrap_outcome (dotenv_config : ProcessEnv -> ProcessEnv) (create : Settled)
        (listen : Port -> Settled) (env0 : ProcessEnv) :
  let env := dotenv_config env0 in
  let run := bootstrap dotenv_config create listen env0 in
  (fst run = Resolved <-> create = Resolved /\ listen (PORT env) = Resolved)
  /\ (create = Rejected ->
      listens (snd run) = []
      /\ snd run = [DotenvConfig; ConsoleLog "BACKEND DB URI =>" (env "MONGO_URI"); NestCreate])
  /\ (create = Resolved -> listen (PORT env) = Rejected ->
      snd run
      = [ DotenvConfig;
        ConsoleLog "BACKEND DB URI =>" (env "MONGO_URI");
        NestCreate;
        UseJson "10mb";
        UseUrlencoded "10mb" true;
        EnableCors "http://localhost:3000" true
                   ["GET"; "POST"; "PATCH"; "PUT"; "DELETE"]
                   ["Content-Type"; "Authorization"];
        SwaggerSetup "api" "Employee Profile API"
          "API documentation for Employee Profile, Change Requests, Disputes, and Manager Views"
          "1.0";
        Listen (PORT env) ])
  /\ (fst run = Rejected ->
      forall label value, In (ConsoleLog label value) (snd run) ->
                          label = "BACKEND DB URI =>" /\ value = env "MONGO_URI")
  /\ port_text (PORT env) <> "".
Proof.
  intros env run; subst run; unfold bootstrap; fold env.
  split; [|split; [|split; [|split]]].
  - destruct create; [destruct (listen (PORT env))|]; simpl; split;
      try (intros [? ?]); try discriminate; auto.
  - intros ->; split; reflexivity.
  - intros -> ->; reflexivity.
  - destruct create; [destruct (listen (PORT env))|]; simpl; try discriminate;
      intros _ label value Hin;
      repeat (destruct Hin as [Hin | Hin]; try discriminate;
              try (injection Hin as <- <-; split; reflexivity));
      destruct Hin.
  - unfold PORT.
    destruct (env "PORT") as [s|]; [|discriminate].
    destruct (String.eqb s "") eqn:E; [discriminate|].
    apply String.eqb_neq in E; exact E.
Qed.

Lemma bootstrap_outcome_witness :
  listens (snd (bootstrap (fun e => e) Rejected (fun _ => Resolved) env_port_8080)) = []
  /\ snd (bootstrap (fun e => e) Resolved (fun _ => Rejected) env_port_8080)
     = [ DotenvConfig;
         ConsoleLog "BACKEND DB URI =>" None;
         NestCreate;
         UseJson "10mb";
         UseUrlencoded "10mb" true;
         EnableCors "http://localhost:3000" true
                    ["GET"; "POST"; "PATCH"; "PUT"; "DELETE"]
                    ["Content-Type"; "Authorization"];
         SwaggerSetup "api" "Employee Profile API"
           "API documentation for Employee Profile, Change Requests, Disputes, and Manager Views"
           "1.0";
         Listen (PortString "8080") ].
Proof.
  split.
  - exact (proj1 (proj1 (proj2 (bootstrap_outcome (fun e => e) Rejected (fun _ => Resolved)
                                  env_port_8080))
                        eq_refl)).
  - exact (proj1 (proj2 (proj2 (bootstrap_outcome (fun e => e) Resolved (fun _ => Rejected)
                                  env_port_8080)))
                 eq_refl eq_refl).
Defined.
